(** * Aarav robot orchestration server: a shallow embedding of [groq_robot.py]

    The development follows the source file top to bottom.

    - [Py]: the fragment of Python the server relies on: [str] as a sequence
      of code points with [strip], [split], [join], [startswith], [replace]
      and the case mappings; JSON-shaped values with truthiness, [dict.get]
      and hashing; [bytes] and [base64.b64encode]; exceptions.
    - [Server]: the configuration constants, [parse_response] and the
      effectful functions [get_llm_response], [text_to_speech],
      [convert_to_esp32_wav], [talk] and [clear_session], written in a state
      and exception monad over an explicit world: the process-wide
      [conversation_history], the files on disk and the log of requests sent
      to the language model.  The remote services and the conversion tool
      are the fields of an environment record.
    - the properties, one section per component.

    The three [print] calls on the path of [talk] through the pipeline (the
    user text, the reply of the model, the parsed directive) are modelled:
    writing to standard output raises when the stream cannot encode the
    text, and that ends the request.  The other messages (the lines [DEBUG]
    and [ERROR] of [talk], those of the conversion and of the device helper)
    are taken to be written; so are the creation and the writing of the
    temporary file of [convert_to_esp32_wav].  JSON numbers are integers.  The
    device helper [send_to_esp32] and the handlers [talk_text] and [health]
    come last in [Server]. *)

From Stdlib Require Import ZArith NArith QArith List String Ascii Lia.
From Stdlib.Strings Require Import Byte.
From Stdlib Require Import DecimalString.
From stdpp Require Import base option list countable gmap.
Import ListNotations.

Local Open Scope N_scope.

(** ** The Python fragment *)

Module Py.

(** A Python [str] is a sequence of Unicode code points. *)
Abbreviation str := (list N) (only parsing).

(** Literals are written as ASCII text and read as code points. *)
Definition lit (s : string) : str :=
  List.map N_of_ascii (list_ascii_of_string s).

(** [str(n)] for an [int]. *)
Definition str_of_Z (z : Z) : str := lit (NilEmpty.string_of_int (Z.to_int z)).

(** [str.isspace] on one code point: the set [str.strip()] removes. *)
Definition isspace (c : N) : bool :=
  ((9 <=? c) && (c <=? 13)) || ((28 <=? c) && (c <=? 32))
  || (c =? 133) || (c =? 160) || (c =? 5760)
  || ((8192 <=? c) && (c <=? 8202))
  || (c =? 8232) || (c =? 8233) || (c =? 8239) || (c =? 8287) || (c =? 12288).

Fixpoint lstrip (s : str) : str :=
  match s with
  | [] => []
  | c :: s' => if isspace c then lstrip s' else s
  end.

Fixpoint rstrip (s : str) : str :=
  match s with
  | [] => []
  | c :: s' =>
      match rstrip s' with
      | [] => if isspace c then [] else [c]
      | r => c :: r
      end
  end.

(** [s.strip()] *)
Definition strip (s : str) : str := rstrip (lstrip s).

(** [s.startswith(p)] *)
Fixpoint startswith (s p : str) {struct p} : bool :=
  match p with
  | [] => true
  | a :: p' =>
      match s with
      | [] => false
      | b :: s' => (b =? a) && startswith s' p'
      end
  end.

(** [s.split(sep)] for a separator of one code point; the result always has
    at least one piece. *)
Fixpoint split (sep : N) (s : str) : list str :=
  match s with
  | [] => [[]]
  | c :: s' =>
      if c =? sep then [] :: split sep s'
      else match split sep s' with
           | l :: ls => (c :: l) :: ls
           | [] => [[c]]
           end
  end.

(** [s.split(sep, 1)]: cut at the first separator only. *)
Fixpoint split1 (sep : N) (s : str) : list str :=
  match s with
  | [] => [[]]
  | c :: s' =>
      if c =? sep then [[]; s']
      else match split1 sep s' with
           | l :: ls => (c :: l) :: ls
           | [] => [[c]]
           end
  end.

(** [sep.join(pieces)] *)
Fixpoint join (sep : str) (pieces : list str) : str :=
  match pieces with
  | [] => []
  | x :: rest =>
      match rest with
      | [] => x
      | _ :: _ => x ++ sep ++ join sep rest
      end
  end.

(** [s.replace(old, new)] for a non-empty [old]: occurrences are replaced
    left to right without overlap.  [skip] counts the code points of a
    matched occurrence that are still to be passed over. *)
Fixpoint replace_from (old new : str) (skip : nat) (s : str) : str :=
  match s with
  | [] => []
  | c :: s' =>
      match skip with
      | S k => replace_from old new k s'
      | O =>
          if startswith s old
          then new ++ replace_from old new (Nat.pred (length old)) s'
          else c :: replace_from old new O s'
      end
  end.

Definition replace (old new s : str) : str := replace_from old new O s.

(** Values that reach the server from decoded JSON or form data.  The items
    of a [PDict] have pairwise distinct keys. *)
#[warnings="-register-all"] Inductive pyval : Type :=
| PNone
| PBool (b : bool)
| PInt (z : Z)
| PStr (s : str)
| PList (items : list pyval)
| PDict (items : list (str * pyval)).

(** [bool(v)], as tested by [if not v]. *)
Definition truthy (v : pyval) : bool :=
  match v with
  | PNone => false
  | PBool b => b
  | PInt z => negb (z =? 0)%Z
  | PStr s => match s with [] => false | _ => true end
  | PList l => match l with [] => false | _ => true end
  | PDict d => match d with [] => false | _ => true end
  end.

(** [type(v).__name__] *)
Definition type_name (v : pyval) : string :=
  match v with
  | PNone => "NoneType"
  | PBool _ => "bool"
  | PInt _ => "int"
  | PStr _ => "str"
  | PList _ => "list"
  | PDict _ => "dict"
  end.

(** The interpreter's tables.  [upper_cp] is the full uppercase mapping of
    one code point (it may expand to several); [lower] sees the whole
    string, since the lowercase of a sigma depends on its position; [repr]
    renders a value as [repr()] does.  The one fact used about the tables is
    that no code point other than the colon has a colon in its uppercase
    form. *)
Class Runtime := {
  upper_cp : N -> list N;
  lower : str -> str;
  repr : pyval -> str;
  upper_cp_colon : forall c, In 58 (upper_cp c) -> c = 58
}.

(** [s.upper()] *)
Definition upper `{Runtime} (s : str) : str := flat_map upper_cp s.

(** [str(v)], as used by f-strings. *)
Definition py_str `{Runtime} (v : pyval) : str :=
  match v with
  | PNone => lit "None"
  | PBool true => lit "True"
  | PBool false => lit "False"
  | PInt z => str_of_Z z
  | PStr s => s
  | PList _ | PDict _ => repr v
  end.

(** Exceptions: the class and the text [str(e)] gives. *)
Record exn := Exn { exn_class : string; exn_str : str }.

Inductive outcome (A : Type) : Type :=
| Ret (a : A)
| Raise (e : exn).
Arguments Ret {A} a.
Arguments Raise {A} e.

Definition obind {A B} (x : outcome A) (k : A -> outcome B) : outcome B :=
  match x with
  | Ret a => k a
  | Raise e => Raise e
  end.

(** [l[i]] on a list. *)
Definition py_index {A} (l : list A) (i : nat) : outcome A :=
  match nth_error l i with
  | Some x => Ret x
  | None => Raise (Exn "IndexError" (lit "list index out of range"))
  end.

Fixpoint dict_lookup (d : list (str * pyval)) (k : str) : option pyval :=
  match d with
  | [] => None
  | (k', v) :: d' => if decide (k' = k) then Some v else dict_lookup d' k
  end.

(** [data.get(k, default)]; only a [dict] has the method. *)
Definition py_get (data : pyval) (k : str) (dflt : pyval) : outcome pyval :=
  match data with
  | PDict d => Ret (default dflt (dict_lookup d k))
  | _ =>
      Raise (Exn "AttributeError"
               (lit "'" ++ lit (type_name data) ++ lit "' object has no attribute 'get'"))
  end.

(** Keys of a [dict].  [True] and [1] (and [False] and [0]) are the same
    key; lists and dicts are not hashable. *)
Inductive key : Type :=
| KNone
| KNum (z : Z)
| KStr (s : str).

Definition py_hash (v : pyval) : outcome key :=
  match v with
  | PNone => Ret KNone
  | PBool b => Ret (KNum (if b then 1 else 0))
  | PInt z => Ret (KNum z)
  | PStr s => Ret (KStr s)
  | PList _ | PDict _ =>
      Raise (Exn "TypeError" (lit "unhashable type: '" ++ lit (type_name v) ++ lit "'"))
  end.

(** [bytes] *)
Abbreviation bytes := (list byte) (only parsing).

Definition B64_ALPHABET : str :=
  Eval cbv in lit "ABCDEFGHIJKLMNOPQRSTUVWXYZabcdefghijklmnopqrstuvwxyz0123456789+/".

Definition b64_digit (i : N) : N := nth (N.to_nat (N.land i 63)) B64_ALPHABET 0.

Definition B64_PAD : N := 61.

(** [base64.b64encode(data).decode('utf-8')] *)
Fixpoint b64encode (data : bytes) : str :=
  match data with
  | [] => []
  | [a] =>
      let n := N.shiftl (Byte.to_N a) 16 in
      [b64_digit (N.shiftr n 18); b64_digit (N.shiftr n 12); B64_PAD; B64_PAD]
  | [a; b] =>
      let n := N.lor (N.shiftl (Byte.to_N a) 16) (N.shiftl (Byte.to_N b) 8) in
      [b64_digit (N.shiftr n 18); b64_digit (N.shiftr n 12);
       b64_digit (N.shiftr n 6); B64_PAD]
  | a :: b :: c :: rest =>
      let n := N.lor (N.lor (N.shiftl (Byte.to_N a) 16) (N.shiftl (Byte.to_N b) 8))
                     (Byte.to_N c) in
      b64_digit (N.shiftr n 18) :: b64_digit (N.shiftr n 12)
        :: b64_digit (N.shiftr n 6) :: b64_digit n :: b64encode rest
  end.

End Py.

Import Py.

Declare Scope outcome_scope.
Delimit Scope outcome_scope with outcome.
Notation "'let?' x ':=' e 'in' k" :=
  (obind e (fun x => k))
  (at level 10, x pattern, e at level 200, k at level 200) : outcome_scope.

#[global] Instance key_eq_dec : EqDecision key.
Proof. solve_decision. Defined.

#[global] Instance key_countable : Countable key :=
  inj_countable'
    (fun k => match k with
              | KNone => inl tt
              | KNum z => inr (inl z)
              | KStr s => inr (inr s)
              end)
    (fun x => match x with
              | inl _ => KNone
              | inr (inl z) => KNum z
              | inr (inr s) => KStr s
              end)
    (fun k => match k with KNone | KNum _ | KStr _ => eq_refl end).

(** ** The server *)

Module Server.

(** *** The world the handlers run in *)

(** One entry of a conversation: [{"role": ..., "content": ...}]. *)
Record Turn := { role : str; content : pyval }.

(** The keyword arguments of [groq_client.chat.completions.create]. *)
Record chat_request := {
  model : str;
  messages : list Turn;
  max_tokens : Z;
  temperature : Q
}.

(** What [requests.post] and [requests.get] return. *)
Record http_response := {
  status_code : Z;
  text : str;
  json : outcome pyval;
  content_bytes : bytes
}.

(** What one run of the conversion tool did: the bytes it left in its
    output file, if it wrote one, and the exception [subprocess.run] raises
    for it (the program is missing, or it exited with a non-zero status under
    [check=True]), if any. *)
Record process_result := {
  written : option bytes;
  failure : option exn
}.

(** The collaborators of one request and the configuration read from the
    environment variables:
    - [chat_completions_create] is
      [groq_client.chat.completions.create(...).choices[0].message.content];
    - [temp_name] is the name [tempfile.NamedTemporaryFile] picks, without
      its suffix;
    - [run_tool] is the tool run on an argument vector, given the content of
      its input file;
    - [stdout_write] is what writing a text to standard output does: it
      raises [UnicodeEncodeError] on a text the stream cannot encode. *)
Record env := {
  MURF_API_KEY : str;
  MURF_VOICE_ID : str;
  chat_completions_create : chat_request -> outcome str;
  requests_post : str -> list (str * str) -> list (str * pyval) -> outcome http_response;
  requests_get : pyval -> outcome http_response;
  temp_name : str;
  run_tool : list str -> option bytes -> process_result;
  stdout_write : str -> outcome unit
}.

(** What Flask's [request] answers to the accessors the handlers use:
    - [get_json] is [request.get_json(force=True, silent=True)], [None] when
      the body is not JSON;
    - [get_data] is [request.get_data(as_text=True)];
    - [json_loads_data] is [json.loads] of that text;
    - [form] is [request.form]. *)
Record flask_request := {
  get_json : pyval;
  get_data : str;
  json_loads_data : outcome pyval;
  form : list (str * str)
}.

Record world := {
  conversation_history : gmap key (list Turn);
  files : gmap str bytes;
  llm_calls : list chat_request
}.

(** *** State and exceptions *)

Definition M (A : Type) : Type := world -> outcome A * world.

Definition ret {A} (a : A) : M A := fun w => (Ret a, w).

Definition raise {A} (e : exn) : M A := fun w => (Raise e, w).

Definition bind {A B} (m : M A) (k : A -> M B) : M B :=
  fun w =>
    match m w with
    | (Ret a, w') => k a w'
    | (Raise e, w') => (Raise e, w')
    end.

Definition lift {A} (x : outcome A) : M A := fun w => (x, w).

(** [try: body except Exception as e: handler(e)]; what [body] did to the
    world before raising stays done. *)
Definition try_except {A} (body : M A) (handler : exn -> M A) : M A :=
  fun w =>
    match body w with
    | (Ret a, w') => (Ret a, w')
    | (Raise e, w') => handler e w'
    end.

Declare Scope M_scope.
Delimit Scope M_scope with M.
Notation "x <- e ;; k" := (bind e (fun x => k))
  (at level 100, e at next level, k at level 200, only parsing) : M_scope.
Notation "e ;; k" := (bind e (fun _ => k))
  (at level 100, k at level 200, only parsing, right associativity) : M_scope.
Local Open Scope M_scope.

Definition get_history : M (gmap key (list Turn)) :=
  fun w => (Ret (conversation_history w), w).

Definition put_history (h : gmap key (list Turn)) : M unit :=
  fun w => (Ret tt, {| conversation_history := h; files := files w;
                       llm_calls := llm_calls w |}).

Definition get_files : M (gmap str bytes) :=
  fun w => (Ret (files w), w).

Definition put_files (f : gmap str bytes) : M unit :=
  fun w => (Ret tt, {| conversation_history := conversation_history w; files := f;
                       llm_calls := llm_calls w |}).

Definition log_llm_call (r : chat_request) : M unit :=
  fun w => (Ret tt, {| conversation_history := conversation_history w; files := files w;
                       llm_calls := llm_calls w ++ [r] |}).

(** *** CONFIG and SYSTEM PROMPT *)

Definition dq : string := String (ascii_of_nat 34) EmptyString.

Definition SYSTEM_PROMPT_LINES : list string := [
    "You are Aarav, a friendly and intelligent demo robot living in a research lab."%string;
    EmptyString;
    "About yourself:"%string;
    "- Your name is Aarav."%string;
    "- You live in a lab and interact with researchers, visitors, and students."%string;
    "- You are curious, helpful, warm, and slightly playful."%string;
    "- You speak naturally and conversationally, not like a machine."%string;
    "- You keep responses concise (2-4 sentences max) since you are speaking out loud."%string;
    "- IMPORTANT: Keep the audio ONLY 5-7 seconds maximum! Be brief and concise - choose your words wisely! "%string;
    EmptyString;
    "Physical capabilities - choose appropriate motion and face for EVERY response."%string;
    EmptyString;
    "Available MOTIONS (choose ONE):"%string;
    "- hi                  (greetings, saying hello)"%string;
    "- hand wave          (goodbyes, waving, casual greetings)"%string;
    "- shake hand         (formal introductions, offers to shake)"%string;
    "- hands up           (celebrations, victories, cheering)"%string;
    "- hands down         (calming, lowering energy, neutral)"%string;
    "- dance              (celebrations, music, fun, parties)"%string;
    "- jump               (excitement, surprise, joy)"%string;
    "- exercise           (fitness, health, workout topics)"%string;
    "- forward            (moving forward, progress)"%string;
    "- backward           (going back, reversing)"%string;
    "- turn right         (turning right)"%string;
    "- turn left          (turning left)"%string;
    "- say yes            (agreement, affirmation, nodding)"%string;
    "- say no             (disagreement, denial, shaking head)"%string;
    "- say thank you      (gratitude, appreciation, thanks)"%string;
    "- right bend wave    (playful right-side wave)"%string;
    "- left bend wave     (playful left-side wave)"%string;
    "- initial position   (neutral, rest position)"%string;
    EmptyString;
    "Available FACES (choose ONE):"%string;
    "- talking   (default - speaking normally)"%string;
    "- happy     (positive, joyful, excited)"%string;
    "- sad       (sympathetic, disappointing, somber)"%string;
    "- angry     (frustrated, upset - use sparingly)"%string;
    "- crying    (very sad, emotional - rare)"%string;
    "- blink     (thinking, casual, neutral)"%string;
    "- initial   (neutral default face)"%string;
    EmptyString;
    "CRITICAL OUTPUT FORMAT:"%string;
    "Always end your response with these TWO lines:"%string;
    "MOTION: [one of the motions above]"%string;
    "FACE: [one of the faces above]"%string;
    EmptyString;
    "Examples:"%string;
    EmptyString;
    ("User: " ++ dq ++ "Hey Aarav, introduce yourself!" ++ dq)%string;
    "Response:"%string;
    "Hi there! I'm Aarav, your friendly lab robot. I love meeting new people and showing off what AI can do!"%string;
    "MOTION: hi"%string;
    "FACE: happy"%string;
    EmptyString;
    ("User: " ++ dq ++ "What's the weather like today?" ++ dq)%string;
    "Response:"%string;
    "I don't have access to weather data, but I can help you look it up if you'd like!"%string;
    "MOTION: initial position"%string;
    "FACE: talking"%string;
    EmptyString;
    ("User: " ++ dq ++ "Tell me a joke" ++ dq)%string;
    "Response:"%string;
    "Why don't robots ever get lost? Because they always follow their programming! Hope that made you smile!"%string;
    "MOTION: dance"%string;
    "FACE: happy"%string;
    EmptyString;
    ("User: " ++ dq ++ "That's sad news" ++ dq)%string;
    "Response:"%string;
    "I'm really sorry to hear that. I'm here if you need to talk about it."%string;
    "MOTION: hands down"%string;
    "FACE: sad"%string;
    EmptyString;
    ("User: " ++ dq ++ "Thanks Aarav!" ++ dq)%string;
    "Response:"%string;
    "You're very welcome! Happy to help anytime!"%string;
    "MOTION: say thank you"%string;
    "FACE: happy"%string
  ].

(** The triple-quoted literal opens and closes with a line break. *)
Definition SYSTEM_PROMPT : str :=
  Eval vm_compute in
    [10] ++ join [10] (List.map lit SYSTEM_PROMPT_LINES) ++ [10].

(** The MOTIONS and FACES the prompt lists. *)
Definition MOTIONS : list str :=
  Eval vm_compute in
    List.map lit
      ["hi"; "hand wave"; "shake hand"; "hands up"; "hands down"; "dance";
       "jump"; "exercise"; "forward"; "backward"; "turn right"; "turn left";
       "say yes"; "say no"; "say thank you"; "right bend wave";
       "left bend wave"; "initial position"]%string.

Definition FACES : list str :=
  Eval vm_compute in
    List.map lit
      ["talking"; "happy"; "sad"; "angry"; "crying"; "blink"; "initial"]%string.

Section WithRuntime.
Context `{Runtime}.

(** *** PARSE: extract motion and face from the reply of the model *)

Definition NEWLINE : N := 10.
Definition COLON : N := 58.
Definition SPACE : str := Eval cbv in lit " ".
Definition MOTION_TAG : str := Eval cbv in lit "MOTION:".
Definition FACE_TAG : str := Eval cbv in lit "FACE:".
Definition DEFAULT_MOTION : str := Eval cbv in lit "initial position".
Definition DEFAULT_FACE : str := Eval cbv in lit "talking".

(** The loop variables of [parse_response]. *)
Record scan := Scan {
  motion : str;
  face : str;
  clean_lines : list str
}.

(** One iteration of [for line in lines]. *)
Definition parse_line (st : scan) (line : str) : outcome scan :=
  let upper_line := upper (strip line) in
  if startswith upper_line MOTION_TAG then
    (let? v := py_index (split1 COLON line) 1 in
     Ret (Scan (lower (strip v)) (face st) (clean_lines st)))%outcome
  else if startswith upper_line FACE_TAG then
    (let? v := py_index (split1 COLON line) 1 in
     Ret (Scan (motion st) (lower (strip v)) (clean_lines st)))%outcome
  else
    Ret (Scan (motion st) (face st) (clean_lines st ++ [line])).

Fixpoint parse_lines (lines : list str) (st : scan) : outcome scan :=
  match lines with
  | [] => Ret st
  | line :: rest => obind (parse_line st line) (parse_lines rest)
  end.

(** [parse_response(raw_text)] returns [(spoken_text, motion, face)]. *)
Definition parse_response (raw_text : str) : outcome (str * str * str) :=
  let lines := split NEWLINE (strip raw_text) in
  (let? st := parse_lines lines (Scan DEFAULT_MOTION DEFAULT_FACE []) in
   let spoken_text := strip (join SPACE (clean_lines st)) in
   Ret (spoken_text, motion st, face st))%outcome.

(** *** LLM via Groq LLaMA *)

(** [session_id in conversation_history] *)
Definition history_contains (session_id : pyval) : M bool :=
  k <- lift (py_hash session_id) ;;
  h <- get_history ;;
  ret (bool_decide (is_Some (h !! k))).

(** [conversation_history[session_id]] *)
Definition history_getitem (session_id : pyval) : M (list Turn) :=
  k <- lift (py_hash session_id) ;;
  h <- get_history ;;
  match h !! k with
  | Some turns => ret turns
  | None => raise (Exn "KeyError" (repr session_id))
  end.

(** [conversation_history[session_id] = turns] *)
Definition history_setitem (session_id : pyval) (turns : list Turn) : M unit :=
  k <- lift (py_hash session_id) ;;
  h <- get_history ;;
  put_history (<[k := turns]> h).

(** [del conversation_history[session_id]] *)
Definition history_delitem (session_id : pyval) : M unit :=
  k <- lift (py_hash session_id) ;;
  h <- get_history ;;
  match h !! k with
  | Some _ => put_history (delete k h)
  | None => raise (Exn "KeyError" (repr session_id))
  end.

(** [conversation_history[session_id].append(turn)] *)
Definition history_append (session_id : pyval) (turn : Turn) : M unit :=
  turns <- history_getitem session_id ;;
  history_setitem session_id (turns ++ [turn]).

(** [turns[-n:]] for a positive [n] *)
Definition last_n {A} (n : nat) (turns : list A) : list A :=
  drop (length turns - n) turns.

Definition SYSTEM_MESSAGE : Turn :=
  {| role := lit "system"; content := PStr SYSTEM_PROMPT |}.

Definition get_llm_response (E : env) (session_id user_message : pyval) : M str :=
  present <- history_contains session_id ;;
  (if negb present then history_setitem session_id [] else ret tt) ;;
  history_append session_id {| role := lit "user"; content := user_message |} ;;
  turns <- history_getitem session_id ;;
  let messages := [SYSTEM_MESSAGE] ++ turns in
  let request := {| model := lit "llama-3.3-70b-versatile";
                    messages := messages;
                    max_tokens := 300;
                    temperature := 7 # 10 |} in
  log_llm_call request ;;
  raw_reply <- lift (chat_completions_create E request) ;;
  history_append session_id {| role := lit "assistant"; content := PStr raw_reply |} ;;
  turns <- history_getitem session_id ;;
  (if (20 <? length turns)%nat
   then history_setitem session_id (last_n 20 turns)
   else ret tt) ;;
  ret raw_reply.

(** *** TTS via Murf AI *)

Definition text_to_speech (E : env) (spoken : str) : M bytes :=
  let url := lit "https://api.murf.ai/v1/speech/generate" in
  let headers := [(lit "api-key", MURF_API_KEY E);
                  (lit "Content-Type", lit "application/json")] in
  let payload := [(lit "text", PStr spoken);
                  (lit "voiceId", PStr (MURF_VOICE_ID E));
                  (lit "format", PStr (lit "MP3"));
                  (lit "modelVersion", PStr (lit "GEN2"));
                  (lit "channelType", PStr (lit "MONO"));
                  (lit "sampleRate", PInt 24000)] in
  response <- lift (requests_post E url headers payload) ;;
  if negb (status_code response =? 200)%Z then
    raise (Exn "Exception"
             (lit "Murf error " ++ str_of_Z (status_code response) ++ lit ": "
              ++ text response))
  else
    data <- lift (json response) ;;
    audio_url <- lift (py_get data (lit "audioFile") PNone) ;;
    if negb (truthy audio_url) then
      raise (Exn "Exception"
               (lit "Murf did not return an audio URL. Response: " ++ repr data))
    else
      audio_response <- lift (requests_get E audio_url) ;;
      if negb (status_code audio_response =? 200)%Z then
        raise (Exn "Exception"
                 (lit "Failed to download Murf audio: "
                  ++ str_of_Z (status_code audio_response)))
      else
        ret (content_bytes audio_response).

(** *** Convert MP3 to WAV (8-bit 8000Hz for ESP32) *)

(** [f.write(data)] on a file opened for writing at [path]; the file is
    taken to be created and written (a full disk is not modelled) *)
Definition write_file (path : str) (data : bytes) : M unit :=
  f <- get_files ;;
  put_files (<[path := data]> f).

(** [open(path, 'rb').read()] *)
Definition read_file (path : str) : M bytes :=
  f <- get_files ;;
  match f !! path with
  | Some data => ret data
  | None =>
      raise (Exn "FileNotFoundError" (lit "[Errno 2] No such file or directory: " ++ repr (PStr path)))
  end.

(** [os.remove(path)] *)
Definition os_remove (path : str) : M unit :=
  f <- get_files ;;
  match f !! path with
  | Some _ => put_files (delete path f)
  | None =>
      raise (Exn "FileNotFoundError" (lit "[Errno 2] No such file or directory: " ++ repr (PStr path)))
  end.

(** The argument that follows [flag] in an argument vector. *)
Fixpoint arg_after (flag : str) (argv : list str) : option str :=
  match argv with
  | [] => None
  | a :: rest =>
      if decide (a = flag) then head rest else arg_after flag rest
  end.

(** [subprocess.run(cmd, check=True, capture_output=True)] for the
    conversion tool: it reads the file named after [-i], may write the file
    named by its last argument, touches no other file, and raises when the
    run fails. *)
Definition subprocess_run (E : env) (cmd : list str) : M unit :=
  f <- get_files ;;
  let input := arg_after (lit "-i") cmd ≫= (fun p => f !! p) in
  let result := run_tool E cmd input in
  match written result, last cmd with
  | Some data, Some out => put_files (<[out := data]> f)
  | _, _ => ret tt
  end ;;
  match failure result with
  | Some e => raise e
  | None => ret tt
  end.

(** [mp3_path.replace('.mp3', '.wav')] *)
Definition wav_path_of (mp3_path : str) : str :=
  replace (lit ".mp3") (lit ".wav") mp3_path.

Definition ffmpeg_cmd (mp3_path wav_path : str) : list str :=
  [lit "ffmpeg"; lit "-y"; lit "-i"; mp3_path;
   lit "-ar"; lit "8000";
   lit "-ac"; lit "1";
   lit "-acodec"; lit "pcm_u8";
   wav_path].

Definition convert_to_esp32_wav (E : env) (mp3_bytes : bytes) : M bytes :=
  let mp3_path := temp_name E ++ lit ".mp3" in
  write_file mp3_path mp3_bytes ;;
  let wav_path := wav_path_of mp3_path in
  let cmd := ffmpeg_cmd mp3_path wav_path in
  try_except
    (subprocess_run E cmd ;;
     wav_bytes <- read_file wav_path ;;
     os_remove mp3_path ;;
     os_remove wav_path ;;
     ret wav_bytes)
    (fun e =>
       os_remove mp3_path ;;
       ret mp3_bytes).

(** *** MAIN ENDPOINT: POST /talk *)

(** [jsonify({...})] *)
Definition jsonify (items : list (str * pyval)) : gmap str pyval :=
  list_to_map items.

(** [request.form.to_dict()] *)
Definition form_to_dict (request : flask_request) : pyval :=
  PDict (List.map (fun kv => (fst kv, PStr (snd kv))) (form request)).

(** The three ways [talk] tries to get the request data; a failure of
    [json.loads] is passed over. *)
Definition request_data (request : flask_request) : pyval :=
  (* Method 1: JSON directly *)
  let data := get_json request in
  (* Method 2: raw text data *)
  let data :=
    if negb (truthy data) then
      if truthy (PStr (get_data request)) then
        match json_loads_data request with
        | Ret loaded => loaded
        | Raise _ => data
        end
      else data
    else data in
  (* Method 3: form data *)
  if negb (truthy data) then form_to_dict request else data.

(** [print(text)] *)
Definition py_print (E : env) (text : str) : M unit :=
  lift (stdout_write E text).

(** Steps 1 to 6 of [talk], once the text and the session id are known. *)
Definition talk_steps (E : env) (session_id user_text : pyval)
  : M (gmap str pyval * Z) :=
  (* Step 1: LLM *)
  raw_llm_response <- get_llm_response E session_id user_text ;;
  py_print E (lit "[LLM] " ++ raw_llm_response) ;;
  (* Step 2: Parse *)
  parsed <- lift (parse_response raw_llm_response) ;;
  let '(spoken_text, motion, face) := parsed in
  py_print E (lit "[PARSE] spoken: " ++ spoken_text ++ lit " | motion: " ++ motion
              ++ lit " | face: " ++ face) ;;
  (* Step 3: TTS *)
  audio_mp3 <- text_to_speech E spoken_text ;;
  (* Step 4: Convert to ESP32 WAV *)
  audio_wav <- convert_to_esp32_wav E audio_mp3 ;;
  (* Step 5: Base64 encode *)
  let audio_b64 := b64encode audio_wav in
  (* Step 6: Return everything to the app *)
  ret (jsonify [(lit "success", PBool true);
                (lit "audio_base64", PStr audio_b64);
                (lit "transcript", user_text);
                (lit "response", PStr spoken_text);
                (lit "motion", PStr motion);
                (lit "face", PStr face)], 200%Z).

Definition talk (E : env) (request : flask_request) : M (gmap str pyval * Z) :=
  try_except
    (let data := request_data request in
     if negb (truthy data) then
       ret (jsonify [(lit "success", PBool false);
                     (lit "error", PStr (lit "Could not parse request data"))], 200%Z)
     else
       user_text <- lift (py_get data (lit "text") (PStr [])) ;;
       session_id <- lift (py_get data (lit "session_id") (PStr (lit "default"))) ;;
       if negb (truthy user_text) then
         ret (jsonify [(lit "success", PBool false);
                       (lit "error", PStr (lit "No text provided"))], 200%Z)
       else
         py_print E (lit "[USER TEXT] " ++ py_str user_text) ;;
         talk_steps E session_id user_text)
    (fun e =>
       ret (jsonify [(lit "success", PBool false);
                     (lit "error", PStr (exn_str e))], 200%Z)).

(** *** POST /clear_session *)

Definition clear_session (request : flask_request) : M (gmap str pyval * Z) :=
  data <- lift (json_loads_data request) ;;
  session_id <- lift (py_get data (lit "session_id") (PStr (lit "default"))) ;;
  present <- history_contains session_id ;;
  (if present then history_delitem session_id else ret tt) ;;
  ret (jsonify [(lit "message",
                 PStr (lit "Session '" ++ py_str session_id ++ lit "' cleared."))],
       200%Z).

(** *** Send command to ESP32 *)

(** [send_to_esp32(esp32_ip, audio_b64, motion, face)].  The ten-second
    timeout of the source is one of the ways [requests.post] raises. *)
Definition send_to_esp32 (E : env) (esp32_ip audio_b64 motion face : str) : M bool :=
  let url := lit "http://" ++ esp32_ip ++ lit "/command" in
  let payload := [(lit "audio", PStr audio_b64);
                  (lit "motion", PStr motion);
                  (lit "face", PStr face)] in
  try_except
    (response <- lift (requests_post E url [] payload) ;;
     if (status_code response =? 200)%Z then ret true else ret false)
    (fun e => ret false).

(** *** TEXT-ONLY TEST ENDPOINT: POST /talk_text *)

Definition talk_text (E : env) (request : flask_request) : M (gmap str pyval * Z) :=
  try_except
    (data <- lift (json_loads_data request) ;;
     user_text <- lift (py_get data (lit "text") (PStr [])) ;;
     session_id <- lift (py_get data (lit "session_id") (PStr (lit "default"))) ;;
     if negb (truthy user_text) then
       ret (jsonify [(lit "success", PBool false);
                     (lit "error", PStr (lit "No text provided"))], 200%Z)
     else
       raw_llm_response <- get_llm_response E session_id user_text ;;
       parsed <- lift (parse_response raw_llm_response) ;;
       let '(spoken_text, motion, face) := parsed in
       audio_mp3 <- text_to_speech E spoken_text ;;
       audio_wav <- convert_to_esp32_wav E audio_mp3 ;;
       let audio_b64 := b64encode audio_wav in
       ret (jsonify [(lit "success", PBool true);
                     (lit "audio_base64", PStr audio_b64);
                     (lit "motion", PStr motion);
                     (lit "face", PStr face);
                     (lit "spoken_text", PStr spoken_text)], 200%Z))
    (fun e =>
       ret (jsonify [(lit "success", PBool false);
                     (lit "error", PStr (exn_str e))], 200%Z)).

(** *** GET /health *)

Definition health : M (gmap str pyval * Z) :=
  ret (jsonify [(lit "status", PStr (lit "Aarav server running"))], 200%Z).

End WithRuntime.

End Server.

Import Server.

(** ** The directive, in the words of the specification *)

Module DirectiveSpec.
Section WithRuntime.
Context `{Runtime}.

(** "A line whose case-insensitive trimmed form starts with MOTION:" *)
Definition is_motion_line (line : str) : bool :=
  startswith (upper (strip line)) MOTION_TAG.

(** "likewise for a FACE: prefix" *)
Definition is_face_line (line : str) : bool :=
  startswith (upper (strip line)) FACE_TAG.

Definition is_trailer_line (line : str) : bool :=
  is_motion_line line || is_face_line line.

(** What follows the first colon of a line. *)
Fixpoint after_colon (line : str) : str :=
  match line with
  | [] => []
  | c :: rest => if c =? COLON then rest else after_colon rest
  end.

(** "the lowercased, trimmed value after the colon" *)
Definition label (line : str) : str := lower (strip (after_colon line)).

(** The label of the last line that satisfies [tagged], or the default. *)
Definition last_label (tagged : str -> bool) (dflt : str) (lines : list str) : str :=
  match last (List.filter tagged lines) with
  | Some line => label line
  | None => dflt
  end.

(** "the lines that are not trailer lines, in original order, joined with
    single spaces and with leading/trailing whitespace trimmed" *)
Definition spoken_of_lines (lines : list str) : str :=
  strip (join SPACE (List.filter (fun l => negb (is_trailer_line l)) lines)).

(** The lines of the raw reply. *)
Definition raw_lines (raw : str) : list str := split NEWLINE raw.

Definition spec_spoken_text (raw : str) : str := spoken_of_lines (raw_lines raw).
Definition spec_motion (raw : str) : str :=
  last_label is_motion_line DEFAULT_MOTION (raw_lines raw).
Definition spec_face (raw : str) : str :=
  last_label is_face_line DEFAULT_FACE (raw_lines raw).

End WithRuntime.
End DirectiveSpec.

(** The tables restricted to ASCII: letters change case, every other code
    point is left alone; [repr] is only needed on strings without quotes or
    escapes. *)
Module AsciiRuntime.

Definition ascii_upper_cp (c : N) : list N :=
  if (97 <=? c) && (c <=? 122) then [c - 32] else [c].

Definition ascii_lower_cp (c : N) : N :=
  if (65 <=? c) && (c <=? 90) then c + 32 else c.

Definition ascii_repr (v : pyval) : str :=
  match v with
  | PStr s => [39] ++ s ++ [39]
  | _ => lit (type_name v)
  end.

Lemma ascii_upper_cp_colon c : In 58 (ascii_upper_cp c) -> c = 58.
Proof.
  unfold ascii_upper_cp.
  destruct ((97 <=? c) && (c <=? 122)) eqn:E; simpl; intros [Hc | []].
  - apply andb_prop in E as [E1 E2].
    apply N.leb_le in E1, E2. lia.
  - congruence.
Qed.

Definition tables : Runtime :=
  {| upper_cp := ascii_upper_cp;
     lower := List.map ascii_lower_cp;
     repr := ascii_repr;
     upper_cp_colon := ascii_upper_cp_colon |}.

End AsciiRuntime.

(** ** Names for what the handlers leave behind *)

Module Pipeline.

Definition user_turn (message : pyval) : Turn :=
  {| role := lit "user"; content := message |}.

Definition assistant_turn (reply : str) : Turn :=
  {| role := lit "assistant"; content := PStr reply |}.

(** The turns stored under a key; none when the key is absent. *)
Definition transcript (w : world) (k : key) : list Turn :=
  default [] (conversation_history w !! k).

(** The request [get_llm_response] sends for a list of turns. *)
Definition llm_request (turns : list Turn) : chat_request :=
  {| model := lit "llama-3.3-70b-versatile";
     messages := SYSTEM_MESSAGE :: turns;
     max_tokens := 300;
     temperature := 7 # 10 |}.

(** The cut applied after the assistant turn. *)
Definition bounded (turns : list Turn) : list Turn :=
  if (20 <? length turns)%nat then last_n 20 turns else turns.

(** The world once the turns of [k] are [turns] and [request] was sent. *)
Definition after_llm_call (w : world) (k : key) (turns : list Turn)
    (request : chat_request) : world :=
  {| conversation_history := <[k := turns]> (conversation_history w);
     files := files w;
     llm_calls := llm_calls w ++ [request] |}.

Definition with_files (w : world) (f : gmap str bytes) : world :=
  {| conversation_history := conversation_history w;
     files := f;
     llm_calls := llm_calls w |}.

Definition with_history (w : world) (h : gmap key (list Turn)) : world :=
  {| conversation_history := h;
     files := files w;
     llm_calls := llm_calls w |}.

(** The field and the default of [data.get("session_id", "default")]. *)
Definition SESSION_ID : str := Eval cbv in lit "session_id".
Definition DEFAULT_SESSION : str := Eval cbv in lit "default".

(** The two extensions of [mp3_path.replace('.mp3', '.wav')]. *)
Definition MP3_EXT : str := Eval cbv in lit ".mp3".
Definition WAV_EXT : str := Eval cbv in lit ".wav".

Definition empty_world : world :=
  {| conversation_history := ∅; files := ∅; llm_calls := [] |}.

(** [n] calls of [get_llm_response] in a row, whatever each one returns. *)
Fixpoint converse `{Runtime} (n : nat) (E : env) (session_id message : pyval)
    (w : world) : world :=
  match n with
  | O => w
  | S n' => converse n' E session_id message (snd (get_llm_response E session_id message w))
  end.

(** The payloads of [talk]. *)
Definition failure_payload (error : str) : gmap str pyval * Z :=
  (jsonify [(lit "success", PBool false); (lit "error", PStr error)], 200%Z).

Definition success_payload (transcript : pyval) (response motion face audio_base64 : str)
  : gmap str pyval * Z :=
  (jsonify [(lit "success", PBool true);
            (lit "transcript", transcript);
            (lit "response", PStr response);
            (lit "motion", PStr motion);
            (lit "face", PStr face);
            (lit "audio_base64", PStr audio_base64)], 200%Z).

(** Collaborators for the scenarios below. *)
Definition unreachable : exn := Exn "ConnectionError" (lit "Connection refused").

(** Every service is down and the conversion tool is missing. *)
Definition all_down : env :=
  {| MURF_API_KEY := lit "your_murf_api_key_here";
     MURF_VOICE_ID := lit "en-US-cooper";
     chat_completions_create := fun _ => Raise (Exn "APIConnectionError" (lit "Connection error."));
     requests_post := fun _ _ _ => Raise unreachable;
     requests_get := fun _ => Raise unreachable;
     temp_name := lit "/tmp/tmpk3x9a_2b";
     run_tool := fun _ _ =>
       {| written := None;
          failure := Some (Exn "FileNotFoundError"
                             (lit "[Errno 2] No such file or directory: 'ffmpeg'")) |};
     stdout_write := fun _ => Ret tt |}.


Definition JOKE : str :=
  Eval vm_compute in
    lit "Why did the robot cross the road? To get to the other silicon!"
      ++ [10] ++ lit "MOTION: dance" ++ [10] ++ lit "FACE: happy".

Definition MP3_STUB : bytes := [x49; x44; x33; x04].
Definition PCM_STUB : bytes := [x52; x49; x46; x46; x80; x7f].

(** The end-to-end scenario: every service answers. *)
Definition all_up : env :=
  {| MURF_API_KEY := lit "key";
     MURF_VOICE_ID := lit "en-US-cooper";
     chat_completions_create := fun _ => Ret JOKE;
     requests_post := fun _ _ _ =>
       Ret {| status_code := 200; text := [];
              json := Ret (PDict [(lit "audioFile", PStr (lit "https://murf.ai/a.mp3"))]);
              content_bytes := [] |};
     requests_get := fun _ =>
       Ret {| status_code := 200; text := []; json := Raise unreachable;
              content_bytes := MP3_STUB |};
     temp_name := lit "/tmp/tmpk3x9a_2b";
     run_tool := fun _ _ => {| written := Some PCM_STUB; failure := None |};
     stdout_write := fun _ => Ret tt |}.

(** The conversion tool opens its output file, writes part of it and then
    exits with an error. *)
Definition tool_fails_midway : env :=
  {| MURF_API_KEY := MURF_API_KEY all_up;
     MURF_VOICE_ID := MURF_VOICE_ID all_up;
     chat_completions_create := chat_completions_create all_up;
     requests_post := requests_post all_up;
     requests_get := requests_get all_up;
     temp_name := temp_name all_up;
     run_tool := fun _ _ =>
       {| written := Some [x52; x49; x46; x46];
          failure := Some (Exn "CalledProcessError"
                             (lit "Command returned non-zero exit status 1.")) |};
     stdout_write := stdout_write all_up |}.

(** A request whose JSON body is the given value. *)
Definition json_request (body_text : str) (body : pyval) : flask_request :=
  {| get_json := body; get_data := body_text; json_loads_data := Ret body; form := [] |}.

(** A form-encoded request: its body is not JSON. *)
Definition form_request (body_text : str) (fields : list (str * str)) : flask_request :=
  {| get_json := PNone;
     get_data := body_text;
     json_loads_data :=
       Raise (Exn "JSONDecodeError" (lit "Expecting value: line 1 column 1 (char 0)"));
     form := fields |}.


Definition JOKE_S1 : flask_request :=
  form_request (lit "text=Tell+me+a+joke&session_id=s1")
    [(lit "text", lit "Tell me a joke"); (lit "session_id", lit "s1")].

(** The body [{"text": "hello"}], and the same with the default session id
    spelled out. *)
Definition HELLO_ANONYMOUS : flask_request :=
  json_request
    (lit ("{" ++ dq ++ "text" ++ dq ++ ": " ++ dq ++ "hello" ++ dq ++ "}"))
    (PDict [(lit "text", PStr (lit "hello"))]).

Definition HELLO_DEFAULT : flask_request :=
  json_request
    (lit ("{" ++ dq ++ "text" ++ dq ++ ": " ++ dq ++ "hello" ++ dq ++ ", "
            ++ dq ++ "session_id" ++ dq ++ ": " ++ dq ++ "default" ++ dq ++ "}"))
    (PDict [(lit "text", PStr (lit "hello"));
            (lit "session_id", PStr (lit "default"))]).

(** The body [{}]. *)
Definition EMPTY_OBJECT : flask_request :=
  json_request (lit "{}") (PDict []).

Definition request_data_of_empty_object : pyval := request_data EMPTY_OBJECT.

(** The body [{"session_id": "s1"}]. *)
Definition ONLY_SESSION_ID : flask_request :=
  json_request
    (lit ("{" ++ dq ++ "session_id" ++ dq ++ ": " ++ dq ++ "s1" ++ dq ++ "}"))
    (PDict [(lit "session_id", PStr (lit "s1"))]).

(** [needle in s] on strings. *)
Fixpoint str_contains (s needle : str) : bool :=
  startswith s needle
  || match s with
     | [] => false
     | _ :: rest => str_contains rest needle
     end.

(** A store with two sessions, one of them full. *)
Definition TWENTY_TURNS : list Turn :=
  List.repeat (user_turn (PStr (lit "earlier"))) 20.

Definition two_sessions : world :=
  {| conversation_history :=
       <[KStr (lit "s1") := TWENTY_TURNS]>
         (<[KStr (lit "s2") := [user_turn (PStr (lit "hi"))]]> ∅);
     files := ∅;
     llm_calls := [] |}.

(** The body [{"session_id": "s1"}] asks to clear session s1; see
    [ONLY_SESSION_ID].  The body [{"text": "hello", "session_id": [1]}]. *)
Definition LIST_SESSION_ID : flask_request :=
  json_request
    (lit ("{" ++ dq ++ "text" ++ dq ++ ": " ++ dq ++ "hello" ++ dq ++ ", "
            ++ dq ++ "session_id" ++ dq ++ ": [1]}"))
    (PDict [(lit "text", PStr (lit "hello")); (lit "session_id", PList [PInt 1])]).

(** The body [[1, 2]]. *)
Definition JSON_ARRAY : flask_request :=
  json_request (lit "[1, 2]") (PList [PInt 1; PInt 2]).

(** The model answers, the speech service answers 500. *)
Definition murf_down : env :=
  {| MURF_API_KEY := MURF_API_KEY all_up;
     MURF_VOICE_ID := MURF_VOICE_ID all_up;
     chat_completions_create := chat_completions_create all_up;
     requests_post := fun _ _ _ =>
       Ret {| status_code := 500; text := lit "Internal Server Error";
              json := Raise unreachable; content_bytes := [] |};
     requests_get := requests_get all_up;
     temp_name := temp_name all_up;
     run_tool := run_tool all_up;
     stdout_write := stdout_write all_up |}.

(** Everything answers but the conversion tool is missing. *)
Definition tool_missing : env :=
  {| MURF_API_KEY := MURF_API_KEY all_up;
     MURF_VOICE_ID := MURF_VOICE_ID all_up;
     chat_completions_create := chat_completions_create all_up;
     requests_post := requests_post all_up;
     requests_get := requests_get all_up;
     temp_name := temp_name all_up;
     run_tool := run_tool all_down;
     stdout_write := stdout_write all_down |}.

(** The URL, headers and body [text_to_speech] posts. *)
Definition MURF_URL : str := Eval cbv in lit "https://api.murf.ai/v1/speech/generate".

Definition murf_headers (E : env) : list (str * str) :=
  [(lit "api-key", MURF_API_KEY E); (lit "Content-Type", lit "application/json")].

Definition murf_payload (E : env) (spoken : str) : list (str * pyval) :=
  [(lit "text", PStr spoken);
   (lit "voiceId", PStr (MURF_VOICE_ID E));
   (lit "format", PStr (lit "MP3"));
   (lit "modelVersion", PStr (lit "GEN2"));
   (lit "channelType", PStr (lit "MONO"));
   (lit "sampleRate", PInt 24000)].

(** The answer of [talk_text] that corresponds to an answer of [talk]: the
    transcript is dropped and the response is called [spoken_text]. *)
Definition text_only (payload : gmap str pyval) : gmap str pyval :=
  match payload !! lit "response" with
  | Some spoken =>
      <[lit "spoken_text" := spoken]>
        (delete (lit "response") (delete (lit "transcript") payload))
  | None => payload
  end.

(** A UTF-8 standard output: it refuses the surrogate code points, naming
    the first run of them in the error. *)
Definition is_surrogate (c : N) : bool := (55296 <=? c) && (c <=? 57343).

Definition hex_digit (n : N) : N := if n <? 10 then 48 + n else 87 + n.

Definition hex4 (c : N) : str :=
  [hex_digit (c / 4096 mod 16); hex_digit (c / 256 mod 16);
   hex_digit (c / 16 mod 16); hex_digit (c mod 16)].

Fixpoint surrogate_run (text : str) : Z :=
  match text with
  | c :: rest => if is_surrogate c then (1 + surrogate_run rest)%Z else 0%Z
  | [] => 0%Z
  end.

Fixpoint find_surrogate (text : str) (position : Z) : option (Z * N * Z) :=
  match text with
  | [] => None
  | c :: rest =>
      if is_surrogate c then Some (position, c, surrogate_run text)
      else find_surrogate rest (position + 1)%Z
  end.

Definition utf8_stdout (text : str) : outcome unit :=
  match find_surrogate text 0 with
  | None => Ret tt
  | Some (start, c, run) =>
      Raise (Exn "UnicodeEncodeError"
               (if (run =? 1)%Z then
                  lit "'utf-8' codec can't encode character '\u" ++ hex4 c
                    ++ lit "' in position " ++ str_of_Z start
                    ++ lit ": surrogates not allowed"
                else
                  lit "'utf-8' codec can't encode characters in position "
                    ++ str_of_Z start ++ lit "-" ++ str_of_Z (start + run - 1)
                    ++ lit ": surrogates not allowed"))
  end.

(** Every service answers and standard output is UTF-8. *)
Definition all_up_utf8 : env :=
  {| MURF_API_KEY := MURF_API_KEY all_up;
     MURF_VOICE_ID := MURF_VOICE_ID all_up;
     chat_completions_create := chat_completions_create all_up;
     requests_post := requests_post all_up;
     requests_get := requests_get all_up;
     temp_name := temp_name all_up;
     run_tool := run_tool all_up;
     stdout_write := utf8_stdout |}.

(** The body [{"text": "\ud800"}]: a text that is one lone surrogate. *)
Definition LONE_SURROGATE : flask_request :=
  json_request
    (lit ("{" ++ dq ++ "text" ++ dq ++ ": " ++ dq ++ "\ud800" ++ dq ++ "}"))
    (PDict [(lit "text", PStr [55296])]).

(** The form-encoded body [text=hello]. *)
Definition HELLO_FORM : flask_request :=
  form_request (lit "text=hello") [(lit "text", lit "hello")].

End Pipeline.

(** ** Facts about the string operations *)

Module PyFacts.

Lemma lstrip_cons_space c s : isspace c = true -> lstrip (c :: s) = lstrip s.
Proof. intros Hc. simpl. now rewrite Hc. Qed.

Lemma strip_cons_space c s : isspace c = true -> strip (c :: s) = strip s.
Proof. intros Hc. unfold strip. now rewrite lstrip_cons_space. Qed.

Lemma rstrip_snoc_space c s : isspace c = true -> rstrip (s ++ [c]) = rstrip s.
Proof.
  intros Hc. induction s as [|a s IH]; simpl.
  - now rewrite Hc.
  - now rewrite IH.
Qed.

Lemma strip_snoc_space c s : isspace c = true -> strip (s ++ [c]) = strip s.
Proof.
  intros Hc. unfold strip. induction s as [|a s IH]; simpl.
  - now rewrite Hc.
  - destruct (isspace a); [exact IH|].
    change (a :: s ++ [c]) with ((a :: s) ++ [c]).
    now apply rstrip_snoc_space.
Qed.

Lemma strip_app_spaces s w :
  forallb isspace w = true -> strip (s ++ w) = strip s.
Proof.
  revert s. induction w as [|c w IH]; intros s Hw.
  - now rewrite app_nil_r.
  - simpl in Hw. apply andb_prop in Hw as [Hc Hw].
    change (s ++ c :: w) with (s ++ [c] ++ w). rewrite app_assoc.
    rewrite IH by assumption. now apply strip_snoc_space.
Qed.

Lemma rstrip_decompose s :
  exists w, s = rstrip s ++ w /\ forallb isspace w = true.
Proof.
  induction s as [|c s [w [Hs Hw]]]; simpl.
  - now exists [].
  - destruct (rstrip s) as [|r rs] eqn:Er.
    + destruct (isspace c) eqn:Hc.
      * exists (c :: s). split; [reflexivity|].
        simpl. rewrite Hc. simpl in Hs. now rewrite Hs.
      * exists w. split; [|assumption]. simpl. f_equal. exact Hs.
    + exists w. split; [|assumption]. simpl. f_equal. exact Hs.
Qed.

Lemma In_lstrip x s : In x (lstrip s) -> In x s.
Proof.
  induction s as [|c s IH]; simpl; [tauto|].
  destruct (isspace c); simpl; auto.
Qed.

Lemma In_rstrip x s : In x (rstrip s) -> In x s.
Proof.
  induction s as [|c s IH]; simpl; [tauto|].
  destruct (rstrip s) as [|r rs].
  - destruct (isspace c); simpl; tauto.
  - simpl. intros [Hx | Hx]; [now left|]. right. apply IH. exact Hx.
Qed.

Lemma In_strip x s : In x (strip s) -> In x s.
Proof. intros Hx. now apply In_lstrip, In_rstrip. Qed.

Lemma startswith_In s p x : startswith s p = true -> In x p -> In x s.
Proof.
  revert s. induction p as [|a p IH]; intros s Hs Hx; [destruct Hx|].
  destruct s as [|b s]; simpl in Hs; [discriminate|].
  apply andb_prop in Hs as [Hb Hs]. apply N.eqb_eq in Hb. subst b.
  destruct Hx as [-> | Hx]; [now left|]. right. now apply IH.
Qed.

Lemma split_cons_shape sep s : exists l ls, split sep s = l :: ls.
Proof.
  induction s as [|c s [l [ls E]]]; simpl; [now eexists _, _|].
  destruct (c =? sep); [now eexists _, _|]. rewrite E. now eexists _, _.
Qed.

Lemma split_snoc sep t c :
  exists init l,
    split sep t = init ++ [l] /\
    split sep (t ++ [c]) = if c =? sep then init ++ [l; []] else init ++ [l ++ [c]].
Proof.
  induction t as [|a t (init & l & E1 & E2)]; simpl.
  - exists [], []. split; [reflexivity|]. now destruct (c =? sep).
  - destruct (a =? sep).
    + exists ([] :: init), l. rewrite E1, E2. split; [reflexivity|].
      now destruct (c =? sep).
    + rewrite E1, E2. destruct init as [|i init]; simpl.
      * exists [], (a :: l). split; [reflexivity|]. now destruct (c =? sep).
      * exists ((a :: i) :: init), l. split; [reflexivity|].
        now destruct (c =? sep).
Qed.

Lemma join_snoc sep xs y :
  join sep (xs ++ [y]) = match xs with [] => y | _ :: _ => join sep xs ++ sep ++ y end.
Proof.
  induction xs as [|x xs IH]; [reflexivity|].
  change ((x :: xs) ++ [y]) with (x :: (xs ++ [y])).
  cbn [join]. rewrite IH. destruct xs as [|x' xs]; simpl; [reflexivity|].
  now rewrite <- !app_assoc.
Qed.

End PyFacts.

(** ** The directive parser *)

Module ParseFacts.
Import PyFacts DirectiveSpec.

Section WithRuntime.
Context `{Runtime}.

Lemma space_not_colon c : isspace c = true -> (c =? COLON) = false.
Proof.
  intros Hc. destruct (N.eqb_spec c COLON) as [-> | ]; [|reflexivity].
  vm_compute in Hc. discriminate.
Qed.

Lemma after_colon_app l t :
  In COLON l -> after_colon (l ++ t) = after_colon l ++ t.
Proof.
  induction l as [|c l IH]; simpl; [tauto|].
  intros [Hc | Hl].
  - subst c. now rewrite N.eqb_refl.
  - destruct (c =? COLON); [reflexivity|]. now apply IH.
Qed.

Lemma split1_after_colon l :
  In COLON l -> py_index (split1 COLON l) 1 = Ret (after_colon l).
Proof.
  induction l as [|c l IH]; simpl; [tauto|].
  intros Hin. destruct (N.eqb_spec c COLON) as [-> | Hne]; [reflexivity|].
  destruct Hin as [Hc | Hl]; [congruence|].
  specialize (IH Hl). unfold py_index in *.
  destruct (split1 COLON l) as [|p ps]; simpl in *; [discriminate|exact IH].
Qed.

Lemma upper_colon s : In COLON (upper s) -> In COLON s.
Proof.
  unfold upper. rewrite in_flat_map. intros (c & Hc & Hup).
  apply upper_cp_colon in Hup. change 58 with COLON in Hup. now subst c.
Qed.

Lemma tag_needs_colon tag l :
  In COLON tag -> startswith (upper (strip l)) tag = true -> In COLON l.
Proof.
  intros Htag Hs. apply In_strip, upper_colon.
  eapply startswith_In; eassumption.
Qed.

Lemma motion_line_colon l : is_motion_line l = true -> In COLON l.
Proof. apply tag_needs_colon. vm_compute. tauto. Qed.

Lemma face_line_colon l : is_face_line l = true -> In COLON l.
Proof. apply tag_needs_colon. vm_compute. tauto. Qed.

Lemma motion_line_not_face l : is_motion_line l = true -> is_face_line l = false.
Proof.
  unfold is_motion_line, is_face_line.
  destruct (upper (strip l)) as [|b u]; simpl; [discriminate|].
  intros Hm. apply andb_prop in Hm as [Hb _]. apply N.eqb_eq in Hb. now subst b.
Qed.

(** *** One line, then the loop *)

Lemma parse_line_motion st l :
  is_motion_line l = true ->
  parse_line st l = Ret (Scan (label l) (face st) (clean_lines st)).
Proof.
  intros Hm. unfold parse_line.
  change (startswith (upper (strip l)) MOTION_TAG) with (is_motion_line l).
  rewrite Hm, split1_after_colon by now apply motion_line_colon.
  reflexivity.
Qed.

Lemma parse_line_face st l :
  is_motion_line l = false -> is_face_line l = true ->
  parse_line st l = Ret (Scan (motion st) (label l) (clean_lines st)).
Proof.
  intros Hm Hf. unfold parse_line.
  change (startswith (upper (strip l)) MOTION_TAG) with (is_motion_line l).
  change (startswith (upper (strip l)) FACE_TAG) with (is_face_line l).
  rewrite Hm, Hf, split1_after_colon by now apply face_line_colon.
  reflexivity.
Qed.

Lemma parse_line_prose st l :
  is_trailer_line l = false ->
  parse_line st l = Ret (Scan (motion st) (face st) (clean_lines st ++ [l])).
Proof.
  unfold is_trailer_line. intros Ht. apply orb_false_elim in Ht as [Hm Hf].
  unfold parse_line.
  change (startswith (upper (strip l)) MOTION_TAG) with (is_motion_line l).
  change (startswith (upper (strip l)) FACE_TAG) with (is_face_line l).
  now rewrite Hm, Hf.
Qed.

Lemma last_label_cons tagged d l ls :
  last_label tagged d (l :: ls) =
  last_label tagged (if tagged l then label l else d) ls.
Proof.
  unfold last_label. simpl. destruct (tagged l); [|reflexivity].
  rewrite last_cons. now destruct (last (List.filter tagged ls)).
Qed.

(** The loop of [parse_response] never raises, and computes the last labels
    and the prose lines. *)
Lemma parse_lines_spec ls st :
  parse_lines ls st =
  Ret (Scan (last_label is_motion_line (motion st) ls)
            (last_label is_face_line (face st) ls)
            (clean_lines st
               ++ List.filter (fun l => negb (is_trailer_line l)) ls)).
Proof.
  revert st. induction ls as [|l ls IH]; intros st.
  - simpl. unfold last_label. simpl. rewrite app_nil_r. now destruct st.
  - cbn [parse_lines]. rewrite !last_label_cons. cbn [List.filter].
    unfold is_trailer_line at 1.
    destruct (is_motion_line l) eqn:Hm.
    + rewrite (motion_line_not_face l Hm), parse_line_motion by assumption.
      cbn [obind]. now rewrite IH.
    + destruct (is_face_line l) eqn:Hf.
      * rewrite parse_line_face by assumption. cbn [obind]. now rewrite IH.
      * rewrite parse_line_prose by (unfold is_trailer_line; now rewrite Hm, Hf).
        cbn [obind]. rewrite IH. cbn [motion face clean_lines negb orb].
        now rewrite <- app_assoc.
Qed.

(** *** Trimming the reply first does not change what the lines yield *)

Section Tagged.
Variable tagged : str -> bool.
Hypothesis tagged_strip : forall l l', strip l = strip l' -> tagged l = tagged l'.
Hypothesis tagged_colon : forall l, tagged l = true -> In COLON l.

Lemma tagged_cons_space c l : isspace c = true -> tagged (c :: l) = tagged l.
Proof. intros Hc. apply tagged_strip. now apply strip_cons_space. Qed.

Lemma tagged_snoc_space c l : isspace c = true -> tagged (l ++ [c]) = tagged l.
Proof. intros Hc. apply tagged_strip. now apply strip_snoc_space. Qed.

Lemma tagged_nil : tagged [] = false.
Proof.
  destruct (tagged []) eqn:E; [|reflexivity].
  now apply tagged_colon in E.
Qed.

Lemma label_cons_space c l : isspace c = true -> label (c :: l) = label l.
Proof.
  intros Hc. unfold label. simpl. now rewrite space_not_colon.
Qed.

Lemma label_snoc_space c l :
  isspace c = true -> In COLON l -> label (l ++ [c]) = label l.
Proof.
  intros Hc Hl. unfold label.
  now rewrite after_colon_app, strip_snoc_space.
Qed.

Lemma last_label_app d xs ys :
  last_label tagged d (xs ++ ys) = last_label tagged (last_label tagged d xs) ys.
Proof.
  revert d. induction xs as [|x xs IH]; intros d; [reflexivity|].
  simpl. now rewrite !last_label_cons, IH.
Qed.

Lemma last_label_cons_space d c t :
  isspace c = true ->
  last_label tagged d (split NEWLINE (c :: t)) = last_label tagged d (split NEWLINE t).
Proof.
  intros Hc. simpl. destruct (c =? NEWLINE).
  - now rewrite last_label_cons, tagged_nil.
  - destruct (split_cons_shape NEWLINE t) as (l & ls & ->).
    rewrite !last_label_cons, tagged_cons_space, label_cons_space by assumption.
    reflexivity.
Qed.

Lemma last_label_snoc_space d c t :
  isspace c = true ->
  last_label tagged d (split NEWLINE (t ++ [c])) = last_label tagged d (split NEWLINE t).
Proof.
  intros Hc. destruct (split_snoc NEWLINE t c) as (init & l & -> & ->).
  destruct (c =? NEWLINE).
  - change [l; []] with ([l] ++ [[]]). rewrite app_assoc.
    rewrite (last_label_app d (init ++ [l])).
    now rewrite last_label_cons, tagged_nil.
  - rewrite !last_label_app, !last_label_cons, tagged_snoc_space by assumption.
    destruct (tagged l) eqn:Hl; [|reflexivity].
    now rewrite label_snoc_space by auto.
Qed.

End Tagged.

Section Kept.
Variable keep : str -> bool.
Hypothesis keep_strip : forall l l', strip l = strip l' -> keep l = keep l'.

Definition kept_text (lines : list str) : str :=
  strip (join SPACE (List.filter keep lines)).

Lemma join_cons_cons sep c l ys : join sep ((c :: l) :: ys) = c :: join sep (l :: ys).
Proof. now destruct ys. Qed.

Lemma kept_text_cons_space c t :
  isspace c = true ->
  kept_text (split NEWLINE (c :: t)) = kept_text (split NEWLINE t).
Proof.
  intros Hc. unfold kept_text. simpl. destruct (c =? NEWLINE).
  - simpl. destruct (keep []); [|reflexivity].
    destruct (List.filter keep (split NEWLINE t)) as [|y ys]; [reflexivity|].
    cbn [join]. now apply strip_cons_space.
  - destruct (split_cons_shape NEWLINE t) as (l & ls & ->). simpl.
    rewrite (keep_strip (c :: l) l) by now apply strip_cons_space.
    destruct (keep l); [|reflexivity].
    rewrite join_cons_cons. now apply strip_cons_space.
Qed.

Lemma kept_text_snoc_space c t :
  isspace c = true ->
  kept_text (split NEWLINE (t ++ [c])) = kept_text (split NEWLINE t).
Proof.
  intros Hc. unfold kept_text.
  destruct (split_snoc NEWLINE t c) as (init & l & -> & ->).
  destruct (c =? NEWLINE).
  - change [l; []] with ([l] ++ [[]]). rewrite app_assoc.
    rewrite (List.filter_app keep (init ++ [l])). simpl.
    destruct (keep []); [|now rewrite app_nil_r].
    rewrite join_snoc.
    destruct (List.filter keep (init ++ [l])) as [|y ys]; [reflexivity|].
    rewrite app_nil_r. now apply strip_app_spaces.
  - rewrite !List.filter_app. simpl.
    rewrite (keep_strip (l ++ [c]) l) by now apply strip_snoc_space.
    destruct (keep l); [|reflexivity].
    rewrite !join_snoc.
    destruct (List.filter keep init) as [|y ys]; [now apply strip_snoc_space|].
    rewrite !app_assoc. now apply strip_snoc_space.
Qed.

End Kept.

(** A function of the reply that ignores one more space at either end
    ignores the trimming of the reply. *)
Lemma strip_invariant {A} (g : str -> A) :
  (forall c t, isspace c = true -> g (c :: t) = g t) ->
  (forall c t, isspace c = true -> g (t ++ [c]) = g t) ->
  forall raw, g (strip raw) = g raw.
Proof.
  intros Hl Hr raw. unfold strip.
  assert (Hw : forall w t, forallb isspace w = true -> g (t ++ w) = g t).
  { induction w as [|c w IH]; intros t Hw.
    - now rewrite app_nil_r.
    - simpl in Hw. apply andb_prop in Hw as [Hc Hw].
      change (t ++ c :: w) with (t ++ [c] ++ w). rewrite app_assoc.
      rewrite IH by assumption. now apply Hr. }
  transitivity (g (lstrip raw)).
  - destruct (rstrip_decompose (lstrip raw)) as (w & E & Hws).
    rewrite E at 2. symmetry. now apply Hw.
  - induction raw as [|c raw IH]; [reflexivity|]. simpl.
    destruct (isspace c) eqn:Hc; [|reflexivity].
    rewrite IH. symmetry. now apply Hl.
Qed.

Lemma is_motion_line_strip l l' :
  strip l = strip l' -> is_motion_line l = is_motion_line l'.
Proof. unfold is_motion_line. now intros ->. Qed.

Lemma is_face_line_strip l l' :
  strip l = strip l' -> is_face_line l = is_face_line l'.
Proof. unfold is_face_line. now intros ->. Qed.

Lemma is_prose_line_strip l l' :
  strip l = strip l' ->
  negb (is_trailer_line l) = negb (is_trailer_line l').
Proof.
  intros E. unfold is_trailer_line.
  now rewrite (is_motion_line_strip l l' E), (is_face_line_strip l l' E).
Qed.

Lemma motion_strip_raw raw :
  last_label is_motion_line DEFAULT_MOTION (split NEWLINE (strip raw)) = spec_motion raw.
Proof.
  apply (strip_invariant
           (fun r => last_label is_motion_line DEFAULT_MOTION (split NEWLINE r))).
  - intros c t. apply last_label_cons_space;
      auto using is_motion_line_strip, motion_line_colon.
  - intros c t. apply last_label_snoc_space;
      auto using is_motion_line_strip, motion_line_colon.
Qed.

Lemma face_strip_raw raw :
  last_label is_face_line DEFAULT_FACE (split NEWLINE (strip raw)) = spec_face raw.
Proof.
  apply (strip_invariant
           (fun r => last_label is_face_line DEFAULT_FACE (split NEWLINE r))).
  - intros c t. apply last_label_cons_space;
      auto using is_face_line_strip, face_line_colon.
  - intros c t. apply last_label_snoc_space;
      auto using is_face_line_strip, face_line_colon.
Qed.

Lemma spoken_strip_raw raw :
  spoken_of_lines (split NEWLINE (strip raw)) = spec_spoken_text raw.
Proof.
  apply (strip_invariant (fun r => spoken_of_lines (split NEWLINE r))).
  - intros c t.
    apply (kept_text_cons_space (fun l => negb (is_trailer_line l))).
    apply is_prose_line_strip.
  - intros c t.
    apply (kept_text_snoc_space (fun l => negb (is_trailer_line l))).
    apply is_prose_line_strip.
Qed.

(** [parse_response] in full: it returns, and returns what the lines of the
    raw reply yield. *)
Lemma parse_response_spec raw :
  parse_response raw = Ret (spec_spoken_text raw, spec_motion raw, spec_face raw).
Proof.
  unfold parse_response. rewrite parse_lines_spec. cbn [obind motion face clean_lines].
  rewrite app_nil_l.
  change (strip (join SPACE (List.filter (fun l => negb (is_trailer_line l))
                               (split NEWLINE (strip raw)))))
    with (spoken_of_lines (split NEWLINE (strip raw))).
  now rewrite spoken_strip_raw, motion_strip_raw, face_strip_raw.
Qed.

End WithRuntime.
End ParseFacts.

(** ** The directive parser: the claims *)

Section ParserClaims.
Import DirectiveSpec ParseFacts.
Context `{Runtime}.

(** C1.  For every raw reply, [parse_response] returns (it never raises), and
    it returns exactly: as spoken text the lines of the reply that are not
    trailer lines, in order, joined with single spaces and trimmed; as motion
    the lowercased, trimmed text after the colon of the last line whose
    trimmed, uppercased form starts with MOTION:, or "initial position" when
    there is no such line; as face the same for FACE:, with default
    "talking".  The empty reply yields the empty spoken text and both
    defaults. *)
Theorem C1_parse_response_exact (raw : str) :
  parse_response raw = Ret (spec_spoken_text raw, spec_motion raw, spec_face raw)
  /\ parse_response [] = Ret ([], DEFAULT_MOTION, DEFAULT_FACE).
Proof.
  split.
  - apply parse_response_spec.
  - reflexivity.
Qed.

(** C2, as amended.  The label of the last MOTION: line (of the last FACE:
    line) is returned lowercased and trimmed, whatever it is: it is not
    compared with the vocabulary of the prompt.  The default is returned
    when the reply has no such line. *)
Theorem C2_label_is_passed_through (raw : str) :
  exists s m f,
    parse_response raw = Ret (s, m, f)
    /\ (forall line, last (List.filter is_motion_line (raw_lines raw)) = Some line ->
                     m = label line)
    /\ (forall line, last (List.filter is_face_line (raw_lines raw)) = Some line ->
                     f = label line)
    /\ (List.filter is_motion_line (raw_lines raw) = [] -> m = DEFAULT_MOTION)
    /\ (List.filter is_face_line (raw_lines raw) = [] -> f = DEFAULT_FACE).
Proof.
  exists (spec_spoken_text raw), (spec_motion raw), (spec_face raw).
  split; [apply parse_response_spec|].
  unfold spec_motion, spec_face, last_label.
  repeat split.
  - now intros line ->.
  - now intros line ->.
  - now intros ->.
  - now intros ->.
Qed.

End ParserClaims.

(** The replies of the specification's examples, and a reply with labels
    outside the vocabulary, under the ASCII tables. *)
Example parse_hello_dance_happy :
  @parse_response AsciiRuntime.tables
    (lit "Hello there!" ++ [10] ++ lit "MOTION: dance" ++ [10] ++ lit "FACE: happy")
  = Ret (lit "Hello there!", lit "dance", lit "happy").
Proof. vm_compute. reflexivity. Qed.

Example parse_no_trailers :
  @parse_response AsciiRuntime.tables (lit "Just text, no trailers")
  = Ret (lit "Just text, no trailers", DEFAULT_MOTION, DEFAULT_FACE).
Proof. vm_compute. reflexivity. Qed.

Example parse_last_trailer_wins :
  @parse_response AsciiRuntime.tables
    (lit "  motion: Jump" ++ [10] ++ lit "One" ++ [10] ++ lit "Motion:  HI  "
       ++ [10] ++ lit "two" ++ [10; 10])
  = Ret (lit "One two", lit "hi", DEFAULT_FACE).
Proof. vm_compute. reflexivity. Qed.

(** The two vocabularies are the bullet lists of the prompt: 18 motions
    and 7 faces, each one opening a line of [SYSTEM_PROMPT]. *)
Example vocabulary_is_listed_in_prompt :
  length MOTIONS = 18%nat /\ length FACES = 7%nat
  /\ forallb
       (fun label =>
          existsb (fun line => startswith (lit line) (lit "- " ++ label ++ lit " "))
            SYSTEM_PROMPT_LINES)
       (MOTIONS ++ FACES) = true.
Proof. repeat split; vm_compute; reflexivity. Qed.

(** C2, as stated, fails: the labels "moonwalk" and "smug" are in neither
    list of the prompt, and they are what [parse_response] returns, not the
    defaults. *)
Lemma C2_unknown_label_counterexample :
  let raw := lit "Hi" ++ [10] ++ lit "MOTION: Moonwalk" ++ [10] ++ lit "FACE: smug" in
  ~ In (lit "moonwalk") MOTIONS
  /\ ~ In (lit "smug") FACES
  /\ @parse_response AsciiRuntime.tables raw = Ret (lit "Hi", lit "moonwalk", lit "smug")
  /\ lit "moonwalk" <> DEFAULT_MOTION
  /\ lit "smug" <> DEFAULT_FACE.
Proof.
  cbv zeta. split; [|split; [|split; [|split]]].
  - vm_compute. intros Hin.
    repeat (destruct Hin as [Hin | Hin]; [discriminate Hin|]). exact Hin.
  - vm_compute. intros Hin.
    repeat (destruct Hin as [Hin | Hin]; [discriminate Hin|]). exact Hin.
  - vm_compute. reflexivity.
  - vm_compute. discriminate.
  - vm_compute. discriminate.
Qed.

(** ** The dialogue engine *)

Module DialogueFacts.
Import Pipeline.

Ltac hist_step :=
  repeat (rewrite ?lookup_insert_eq, ?insert_insert_eq;
          cbn -[lit last_n Nat.ltb SYSTEM_MESSAGE]).

Section WithRuntime.
Context `{Runtime}.

(** What one call of [get_llm_response] does, for a hashable session id:
    the user turn is stored and the request sent; the assistant turn and the
    cut only follow a reply. *)
Lemma get_llm_response_run E session_id message w k :
  py_hash session_id = Ret k ->
  get_llm_response E session_id message w =
  let turns := transcript w k ++ [user_turn message] in
  match chat_completions_create E (llm_request turns) with
  | Raise e => (Raise e, after_llm_call w k turns (llm_request turns))
  | Ret reply =>
      (Ret reply,
       after_llm_call w k (bounded (turns ++ [assistant_turn reply])) (llm_request turns))
  end.
Proof.
  intros Hk. destruct w as [h f calls].
  unfold get_llm_response, history_contains, history_append, history_getitem,
    history_setitem, get_history, put_history, log_llm_call, bind, lift, ret,
    transcript, after_llm_call, bounded, llm_request, user_turn, assistant_turn.
  rewrite Hk. cbn -[lit last_n Nat.ltb SYSTEM_MESSAGE].
  destruct (h !! k) as [old|] eqn:Hold; hist_step; rewrite ?Hold; hist_step.
  - destruct (chat_completions_create E _) as [reply|e]; hist_step; [|reflexivity].
    destruct (20 <? _)%nat; hist_step; reflexivity.
  - destruct (chat_completions_create E _) as [reply|e]; hist_step; [|reflexivity].
    destruct (20 <? _)%nat; hist_step; reflexivity.
Qed.

(** An unhashable session id stops the call before anything is stored or
    sent. *)
Lemma get_llm_response_unhashable E session_id message w e :
  py_hash session_id = Raise e ->
  get_llm_response E session_id message w = (Raise e, w).
Proof.
  intros Hk. unfold get_llm_response, history_contains, bind, lift.
  now rewrite Hk.
Qed.

Lemma transcript_after_llm_call w k turns request :
  transcript (after_llm_call w k turns request) k = turns.
Proof. unfold transcript, after_llm_call. cbn. now rewrite lookup_insert_eq. Qed.

Lemma transcript_after_llm_call_ne w k k' turns request :
  k <> k' ->
  transcript (after_llm_call w k turns request) k' = transcript w k'.
Proof.
  intros Hne. unfold transcript, after_llm_call. cbn.
  now rewrite lookup_insert_ne.
Qed.

(** The cut keeps the last twenty turns. *)
Lemma bounded_last_n turns : bounded turns = last_n 20 turns.
Proof.
  unfold bounded, last_n. destruct (Nat.ltb_spec 20 (length turns)); [reflexivity|].
  now replace (length turns - 20)%nat with 0%nat by lia.
Qed.

Lemma bounded_length turns : (length (bounded turns) <= 20)%nat.
Proof. rewrite bounded_last_n. unfold last_n. rewrite length_drop. lia. Qed.

Lemma bounded_suffix turns :
  exists dropped, turns = dropped ++ bounded turns
                  /\ length dropped = (length turns - 20)%nat.
Proof.
  exists (take (length turns - 20) turns). rewrite bounded_last_n. unfold last_n.
  split; [now rewrite take_drop|]. rewrite length_take. lia.
Qed.

(** After a call answered by the model the stored turns are the last
    twenty of the old ones followed by the two new ones. *)
Lemma get_llm_response_reply_bounded E session_id message w k reply :
  py_hash session_id = Ret k ->
  chat_completions_create E (llm_request (transcript w k ++ [user_turn message]))
    = Ret reply ->
  let w' := snd (get_llm_response E session_id message w) in
  transcript w' k
    = last_n 20 (transcript w k ++ [user_turn message; assistant_turn reply])
  /\ (length (transcript w' k) <= 20)%nat.
Proof.
  intros Hk Hreply. rewrite (get_llm_response_run _ _ _ _ _ Hk). cbv zeta.
  rewrite Hreply. cbn [snd]. rewrite transcript_after_llm_call.
  split; [|apply bounded_length].
  rewrite bounded_last_n. now rewrite <- app_assoc.
Qed.

(** When the model is unreachable every call leaves one more user turn. *)
Lemma converse_unanswered E session_id message k :
  py_hash session_id = Ret k ->
  (forall request, exists e, chat_completions_create E request = Raise e) ->
  forall n w,
    transcript (converse n E session_id message w) k
    = transcript w k ++ List.repeat (user_turn message) n.
Proof.
  intros Hk Hdown. induction n as [|n IH]; intros w; cbn [converse List.repeat].
  - now rewrite app_nil_r.
  - rewrite IH, (get_llm_response_run _ _ _ _ _ Hk). cbv zeta.
    destruct (Hdown (llm_request (transcript w k ++ [user_turn message]))) as [e ->].
    cbn [snd]. rewrite transcript_after_llm_call. now rewrite <- app_assoc.
Qed.

End WithRuntime.
End DialogueFacts.

(** ** The audio transcoder *)

Module TranscoderFacts.
Import Pipeline.

(** Replacing the extension changes any path that contains it. *)
Lemma replace_mp3_changes pre post :
  replace MP3_EXT WAV_EXT (pre ++ MP3_EXT ++ post) <> pre ++ MP3_EXT ++ post.
Proof.
  unfold replace. induction pre as [|c pre IH].
  - intros Heq. cbn in Heq. discriminate Heq.
  - change ((c :: pre) ++ MP3_EXT ++ post) with (c :: (pre ++ MP3_EXT ++ post)).
    cbn [replace_from].
    destruct (startswith (c :: pre ++ MP3_EXT ++ post) MP3_EXT) eqn:Hs.
    + destruct (pre ++ MP3_EXT ++ post) as [|c2 rest] eqn:E.
      * cbn in Hs. rewrite andb_false_r in Hs. discriminate.
      * cbn in Hs. apply andb_prop in Hs as [_ Hs]. apply andb_prop in Hs as [Hc2 _].
        apply N.eqb_eq in Hc2. subst c2. cbn. intros Heq. discriminate Heq.
    + intros Heq. injection Heq as Heq. now apply IH.
Qed.

Lemma wav_path_differs stem : wav_path_of (stem ++ lit ".mp3") <> stem ++ lit ".mp3".
Proof.
  intros Heq. apply (replace_mp3_changes stem []).
  rewrite app_nil_r. exact Heq.
Qed.

Lemma cmd_input a b : arg_after (lit "-i") (ffmpeg_cmd a b) = Some a.
Proof. reflexivity. Qed.

Lemma cmd_output a b : last (ffmpeg_cmd a b) = Some b.
Proof. reflexivity. Qed.

Ltac file_step :=
  repeat (first
    [ rewrite lookup_insert_eq
    | rewrite lookup_insert_ne by congruence
    | rewrite lookup_delete_ne by congruence
    | progress cbn -[lit wav_path_of ffmpeg_cmd] ]).

Section WithRuntime.
Context `{Runtime}.

(** What one call of [convert_to_esp32_wav] does.  It always returns: the
    converted bytes when the tool succeeded and its output file can be read,
    the bytes it was given otherwise.  The input file is removed on both
    paths, the output file only on the first. *)
Lemma convert_run E mp3_bytes w :
  let mp3_path := temp_name E ++ lit ".mp3" in
  let wav_path := wav_path_of mp3_path in
  let result := run_tool E (ffmpeg_cmd mp3_path wav_path) (Some mp3_bytes) in
  let on_disk :=
    match written result with
    | Some data => <[wav_path := data]> (<[mp3_path := mp3_bytes]> (files w))
    | None => <[mp3_path := mp3_bytes]> (files w)
    end in
  convert_to_esp32_wav E mp3_bytes w =
  match failure result, on_disk !! wav_path with
  | None, Some wav_bytes =>
      (Ret wav_bytes, with_files w (delete wav_path (delete mp3_path on_disk)))
  | _, _ => (Ret mp3_bytes, with_files w (delete mp3_path on_disk))
  end.
Proof.
  cbv zeta. pose proof (wav_path_differs (temp_name E)) as Hne.
  set (mp3_path := temp_name E ++ lit ".mp3") in *.
  set (wav_path := wav_path_of mp3_path) in *.
  destruct w as [h f calls].
  unfold convert_to_esp32_wav, write_file, subprocess_run, read_file, os_remove,
    try_except, get_files, put_files, bind, ret, raise, with_files.
  fold mp3_path. fold wav_path.
  cbn -[lit wav_path_of ffmpeg_cmd].
  rewrite cmd_input, cmd_output. file_step.
  destruct (run_tool E (ffmpeg_cmd mp3_path wav_path) (Some mp3_bytes))
    as [[data|] [e|]]; file_step; try reflexivity.
  destruct (f !! wav_path) as [stale|] eqn:Hf;
    repeat (progress (file_step; rewrite ?Hf)); reflexivity.
Qed.

End WithRuntime.
End TranscoderFacts.

(** ** The /talk handler *)

Module TalkFacts.
Import Pipeline.

Section WithRuntime.
Context `{Runtime}.

Lemma success_payload_order t s m f b :
  (jsonify [(lit "success", PBool true);
            (lit "audio_base64", PStr b);
            (lit "transcript", t);
            (lit "response", PStr s);
            (lit "motion", PStr m);
            (lit "face", PStr f)], 200%Z) = success_payload t s m f b.
Proof. reflexivity. Qed.

Lemma talk_unparsed E request w :
  truthy (request_data request) = false ->
  talk E request w = (Ret (failure_payload (lit "Could not parse request data")), w).
Proof.
  intros Hd. unfold talk, try_except. rewrite Hd. reflexivity.
Qed.

Lemma talk_no_text E request w d :
  request_data request = PDict d -> d <> [] ->
  truthy (default (PStr []) (dict_lookup d (lit "text"))) = false ->
  talk E request w = (Ret (failure_payload (lit "No text provided")), w).
Proof.
  intros Hd Hne Ht. unfold talk, try_except. rewrite Hd.
  destruct d as [|kv d]; [congruence|].
  cbn -[lit dict_lookup]. unfold bind, lift. cbn -[lit dict_lookup].
  rewrite Ht. reflexivity.
Qed.

Lemma talk_proceeds E request w d :
  request_data request = PDict d ->
  truthy (default (PStr []) (dict_lookup d (lit "text"))) = true ->
  talk E request w =
  try_except
    (bind (py_print E (lit "[USER TEXT] "
                       ++ py_str (default (PStr []) (dict_lookup d (lit "text")))))
          (fun _ =>
             talk_steps E
               (default (PStr (lit "default")) (dict_lookup d (lit "session_id")))
               (default (PStr []) (dict_lookup d (lit "text")))))
    (fun e => ret (failure_payload (exn_str e))) w.
Proof.
  intros Hd Ht. unfold talk, try_except. rewrite Hd.
  destruct d as [|kv d]; [discriminate Ht|].
  cbn -[lit dict_lookup py_print py_str talk_steps].
  rewrite Ht. reflexivity.
Qed.

(** Once the user text is printed, the six steps run under the handler. *)
Lemma talk_printed E request w d :
  request_data request = PDict d ->
  truthy (default (PStr []) (dict_lookup d (lit "text"))) = true ->
  stdout_write E (lit "[USER TEXT] "
                  ++ py_str (default (PStr []) (dict_lookup d (lit "text")))) = Ret tt ->
  talk E request w =
  try_except
    (talk_steps E (default (PStr (lit "default")) (dict_lookup d (lit "session_id")))
                  (default (PStr []) (dict_lookup d (lit "text"))))
    (fun e => ret (failure_payload (exn_str e))) w.
Proof.
  intros Hd Ht Hp. rewrite (talk_proceeds _ _ _ _ Hd Ht).
  unfold try_except, py_print, bind, lift. now rewrite Hp.
Qed.

(** A user text standard output cannot encode ends the request at once. *)
Lemma talk_print_raises E request w d e :
  request_data request = PDict d ->
  truthy (default (PStr []) (dict_lookup d (lit "text"))) = true ->
  stdout_write E (lit "[USER TEXT] "
                  ++ py_str (default (PStr []) (dict_lookup d (lit "text")))) = Raise e ->
  talk E request w = (Ret (failure_payload (exn_str e)), w).
Proof.
  intros Hd Ht Hp. rewrite (talk_proceeds _ _ _ _ Hd Ht).
  unfold try_except, py_print, bind, lift. now rewrite Hp.
Qed.

Lemma talk_steps_llm_raises E session_id user_text w e w1 :
  get_llm_response E session_id user_text w = (Raise e, w1) ->
  talk_steps E session_id user_text w = (Raise e, w1).
Proof. intros Hl. unfold talk_steps, bind. now rewrite Hl. Qed.

Lemma talk_steps_success E session_id user_text w raw w1 s m f mp3 w2 wav w3 :
  get_llm_response E session_id user_text w = (Ret raw, w1) ->
  stdout_write E (lit "[LLM] " ++ raw) = Ret tt ->
  parse_response raw = Ret (s, m, f) ->
  stdout_write E (lit "[PARSE] spoken: " ++ s ++ lit " | motion: " ++ m
                  ++ lit " | face: " ++ f) = Ret tt ->
  text_to_speech E s w1 = (Ret mp3, w2) ->
  convert_to_esp32_wav E mp3 w2 = (Ret wav, w3) ->
  talk_steps E session_id user_text w
  = (Ret (success_payload user_text s m f (b64encode wav)), w3).
Proof.
  intros Hl Hpl Hp Hpp Ht Hc. unfold talk_steps, py_print, bind, lift, ret.
  rewrite Hl, Hpl, Hp, Hpp, Ht, Hc. now rewrite success_payload_order.
Qed.

End WithRuntime.
End TalkFacts.

(** ** The dialogue engine: the claims *)

Section DialogueClaims.
Import Pipeline DialogueFacts TalkFacts.
Context `{Runtime}.

(** C6.  Whatever the model answers, the one request a call of
    [get_llm_response] sends carries the system prompt followed by the turns
    of the session with the new user turn at their end, a budget of 300
    tokens and temperature 0.7.  (A session id that cannot be a dictionary
    key stops the call before any request.) *)
Theorem C6_request_sent_to_llm (E : env) (session_id message : pyval) (w : world) :
  let w' := snd (get_llm_response E session_id message w) in
  match py_hash session_id with
  | Ret k =>
      llm_calls w' =
      llm_calls w ++
        [{| model := lit "llama-3.3-70b-versatile";
            messages :=
              {| role := lit "system"; content := PStr SYSTEM_PROMPT |}
                :: (transcript w k ++ [{| role := lit "user"; content := message |}]);
            max_tokens := 300;
            temperature := 7 # 10 |}]
  | Raise _ => llm_calls w' = llm_calls w
  end.
Proof.
  cbv zeta. destruct (py_hash session_id) as [k|e] eqn:Hk.
  - rewrite (get_llm_response_run _ _ _ _ _ Hk). cbv zeta.
    now destruct (chat_completions_create E _).
  - now rewrite (get_llm_response_unhashable _ _ _ _ _ Hk).
Qed.


End DialogueClaims.

(** C3 fails on the code.  The cut to twenty turns is only made after the
    assistant turn, so a call the model does not answer leaves its user turn
    behind uncut: twenty-one unanswered calls on a fresh session leave
    twenty-one turns. *)
Theorem C3_unanswered_calls_exceed_cap :
  let w := @Pipeline.converse AsciiRuntime.tables 21 Pipeline.all_down
             (PStr (lit "s1")) (PStr (lit "hello")) Pipeline.empty_world in
  length (Pipeline.transcript w (KStr (lit "s1"))) = 21%nat.
Proof.
  cbv zeta.
  rewrite (@DialogueFacts.converse_unanswered AsciiRuntime.tables Pipeline.all_down
             (PStr (lit "s1")) (PStr (lit "hello")) (KStr (lit "s1"))).
  - reflexivity.
  - reflexivity.
  - intros request. eexists. reflexivity.
Qed.



(** ** The pipeline and the transcoder: the claims *)

Section PipelineClaims.
Import Pipeline DialogueFacts TranscoderFacts TalkFacts.
Context `{Runtime}.

(** C5.  A /talk request with text [t] whose stages all succeed (the model
    replies [raw], the reply parses to [(s, m, f)], the synthesizer returns
    [mp3] for [s], the transcoder returns [wav] for [mp3], and the three
    lines the handler prints on the way are written to standard output) is
    answered, with status 200, by exactly
    [{success: true, transcript: t, response: s, motion: m, face: f,
      audio_base64: base64(wav)}]. *)
Theorem C5_successful_talk_payload
    (E : env) (request : flask_request) (w w1 w2 w3 : world)
    (d : list (str * pyval)) (raw s m f : str) (mp3 wav : bytes) :
  let user_text := default (PStr []) (dict_lookup d (lit "text")) in
  let session_id := default (PStr (lit "default")) (dict_lookup d (lit "session_id")) in
  request_data request = PDict d ->
  truthy user_text = true ->
  stdout_write E (lit "[USER TEXT] " ++ py_str user_text) = Ret tt ->
  get_llm_response E session_id user_text w = (Ret raw, w1) ->
  stdout_write E (lit "[LLM] " ++ raw) = Ret tt ->
  parse_response raw = Ret (s, m, f) ->
  stdout_write E (lit "[PARSE] spoken: " ++ s ++ lit " | motion: " ++ m
                  ++ lit " | face: " ++ f) = Ret tt ->
  text_to_speech E s w1 = (Ret mp3, w2) ->
  convert_to_esp32_wav E mp3 w2 = (Ret wav, w3) ->
  talk E request w
  = (Ret (jsonify [(lit "success", PBool true);
                   (lit "transcript", user_text);
                   (lit "response", PStr s);
                   (lit "motion", PStr m);
                   (lit "face", PStr f);
                   (lit "audio_base64", PStr (b64encode wav))], 200%Z),
     w3).
Proof.
  cbv zeta. intros Hd Ht Hpu Hl Hpl Hp Hpp Hs Hc.
  rewrite (talk_printed _ _ _ _ Hd Ht Hpu). unfold try_except.
  now rewrite (talk_steps_success _ _ _ _ _ _ _ _ _ _ _ _ _ Hl Hpl Hp Hpp Hs Hc).
Qed.

(** C7.  When the run of the conversion tool fails (the program cannot be
    started, or it exits with an error), the transcoder returns the bytes it
    was given, unchanged, and does not raise. *)
Theorem C7_failed_conversion_returns_input
    (E : env) (mp3_bytes : bytes) (w : world) (e : exn) :
  let mp3_path := temp_name E ++ lit ".mp3" in
  let cmd := ffmpeg_cmd mp3_path (wav_path_of mp3_path) in
  failure (run_tool E cmd (Some mp3_bytes)) = Some e ->
  fst (convert_to_esp32_wav E mp3_bytes w) = Ret mp3_bytes.
Proof.
  cbv zeta. intros Hfail. rewrite convert_run. cbv zeta. now rewrite Hfail.
Qed.

(** The same holds when the tool reports success and there is no output
    file to read. *)
Lemma missing_output_returns_input (E : env) (mp3_bytes : bytes) (w : world) :
  let mp3_path := temp_name E ++ lit ".mp3" in
  let cmd := ffmpeg_cmd mp3_path (wav_path_of mp3_path) in
  written (run_tool E cmd (Some mp3_bytes)) = None ->
  files w !! wav_path_of mp3_path = None ->
  fst (convert_to_esp32_wav E mp3_bytes w) = Ret mp3_bytes.
Proof.
  cbv zeta. intros Hout Hfree. rewrite convert_run. cbv zeta. rewrite Hout.
  rewrite lookup_insert_ne by (intros Heq; now apply (wav_path_differs (temp_name E))).
  rewrite Hfree. now destruct (failure _).
Qed.

(** On the success path both temporary files are removed: with a fresh
    name the files on disk are what they were. *)
Lemma successful_conversion_cleans_up (E : env) (mp3_bytes wav_bytes : bytes) (w : world) :
  let mp3_path := temp_name E ++ lit ".mp3" in
  let wav_path := wav_path_of mp3_path in
  let result := run_tool E (ffmpeg_cmd mp3_path wav_path) (Some mp3_bytes) in
  failure result = None ->
  written result = Some wav_bytes ->
  files w !! mp3_path = None ->
  files w !! wav_path = None ->
  convert_to_esp32_wav E mp3_bytes w = (Ret wav_bytes, w).
Proof.
  cbv zeta. intros Hok Hout Hmp3 Hwav. rewrite convert_run. cbv zeta.
  rewrite Hok, Hout, lookup_insert_eq. f_equal.
  destruct w as [h fs calls]. unfold with_files.
  cbn [files conversation_history llm_calls] in *. f_equal.
  rewrite delete_insert_ne by (intros Heq; now apply (wav_path_differs (temp_name E))).
  rewrite !delete_insert_eq.
  rewrite (delete_id fs) by assumption.
  now apply delete_id.
Qed.

End PipelineClaims.

(** The end-to-end scenario of the specification. *)
Lemma C5_joke_witness :
  fst (@talk AsciiRuntime.tables Pipeline.all_up Pipeline.JOKE_S1 Pipeline.empty_world)
  = Ret (jsonify
           [(lit "success", PBool true);
            (lit "transcript", PStr (lit "Tell me a joke"));
            (lit "response",
             PStr (lit "Why did the robot cross the road? To get to the other silicon!"));
            (lit "motion", PStr (lit "dance"));
            (lit "face", PStr (lit "happy"));
            (lit "audio_base64", PStr (lit "UklGRoB/"))], 200%Z).
Proof.
  pose (w1 := snd (@get_llm_response AsciiRuntime.tables Pipeline.all_up
                     (PStr (lit "s1")) (PStr (lit "Tell me a joke"))
                     Pipeline.empty_world)).
  pose (w3 := snd (@convert_to_esp32_wav AsciiRuntime.tables Pipeline.all_up
                     Pipeline.MP3_STUB w1)).
  rewrite (@C5_successful_talk_payload AsciiRuntime.tables Pipeline.all_up
             Pipeline.JOKE_S1 Pipeline.empty_world w1 w1 w3
             [(lit "text", PStr (lit "Tell me a joke"));
              (lit "session_id", PStr (lit "s1"))]
             Pipeline.JOKE
             (lit "Why did the robot cross the road? To get to the other silicon!")
             (lit "dance") (lit "happy") Pipeline.MP3_STUB Pipeline.PCM_STUB);
    try (vm_compute; reflexivity).
Defined.

(** The conversion tool is missing: the input comes back. *)
Lemma C7_tool_missing_witness :
  fst (@convert_to_esp32_wav AsciiRuntime.tables Pipeline.all_down Pipeline.MP3_STUB
         Pipeline.empty_world)
  = Ret Pipeline.MP3_STUB.
Proof.
  apply (@C7_failed_conversion_returns_input AsciiRuntime.tables Pipeline.all_down
           Pipeline.MP3_STUB Pipeline.empty_world
           (Exn "FileNotFoundError"
              (lit "[Errno 2] No such file or directory: 'ffmpeg'"))).
  reflexivity.
Defined.

(** C8 fails on the code.  The handler of the failure path removes the
    input file only: when the tool fails after it has written to its output
    file, that file stays on disk. *)
Theorem C8_output_file_left_behind :
  let w := snd (@convert_to_esp32_wav AsciiRuntime.tables Pipeline.tool_fails_midway
                  Pipeline.MP3_STUB Pipeline.empty_world) in
  files Pipeline.empty_world = ∅
  /\ files w !! lit "/tmp/tmpk3x9a_2b.mp3" = None
  /\ files w !! lit "/tmp/tmpk3x9a_2b.wav" = Some [x52; x49; x46; x46].
Proof. cbv zeta. repeat split; vm_compute; reflexivity. Qed.

(** ** Sessions and request data *)

Module SessionFacts.
Import Pipeline DirectiveSpec ParseFacts DialogueFacts TranscoderFacts TalkFacts.

Lemma dict_lookup_app_other d k k' v :
  k' <> k -> dict_lookup (d ++ [(k', v)]) k = dict_lookup d k.
Proof.
  intros Hne. induction d as [|[k0 v0] d IH]; cbn.
  - now rewrite decide_False.
  - now destruct (decide (k0 = k)).
Qed.

Lemma dict_lookup_app_new d k v :
  dict_lookup d k = None -> dict_lookup (d ++ [(k, v)]) k = Some v.
Proof.
  induction d as [|[k0 v0] d IH]; cbn.
  - now rewrite decide_True.
  - destruct (decide (k0 = k)); [discriminate|exact IH].
Qed.

Section WithRuntime.
Context `{Runtime}.

Lemma bind_lift_Ret {A B} (a : A) (k : A -> M B) w : bind (lift (Ret a)) k w = k a w.
Proof. reflexivity. Qed.

(** The synthesizer only talks to the network. *)
Lemma text_to_speech_world E spoken w : snd (text_to_speech E spoken w) = w.
Proof.
  unfold text_to_speech, bind, lift, raise, ret.
  repeat (match goal with
          | |- context [match ?x with _ => _ end] => destruct x
          | |- context [if ?b then _ else _] => destruct b
          end; cbn -[lit]); reflexivity.
Qed.

Ltac frame_step :=
  cbn; split; [intros k' Hne; now rewrite lookup_insert_ne|reflexivity].

(** Steps 1 to 6, with the handler of [talk] around them, touch no session
    but the one of the request, and send one request to the model. *)
Lemma talk_steps_effect E session_id user_text w k :
  py_hash session_id = Ret k ->
  let w' := snd (try_except (talk_steps E session_id user_text)
                   (fun e => ret (failure_payload (exn_str e))) w) in
  (forall k', k' <> k -> conversation_history w' !! k' = conversation_history w !! k')
  /\ llm_calls w' = llm_calls w ++ [llm_request (transcript w k ++ [user_turn user_text])].
Proof.
  intros Hk. cbv zeta. unfold try_except, talk_steps, py_print, bind.
  rewrite (get_llm_response_run _ _ _ _ _ Hk). cbv zeta.
  destruct (chat_completions_create E _) as [reply|e]; [|now frame_step].
  cbn [lift]. destruct (stdout_write E (lit "[LLM] " ++ _)) as [[]|e]; [|now frame_step].
  rewrite parse_response_spec. cbn [lift].
  destruct (stdout_write E _) as [[]|e]; [|now frame_step].
  match goal with |- context [text_to_speech E ?s ?w1] =>
    pose proof (text_to_speech_world E s w1) as Hw;
    destruct (text_to_speech E s w1) as [[mp3|e] w2] end;
    cbn [snd] in Hw; subst w2; [|now frame_step].
  rewrite convert_run. cbv zeta.
  destruct (failure _); [|destruct (_ !! _)]; now frame_step.
Qed.

(** The same for the whole handler: a text that cannot be printed stops it
    before any session is touched. *)
Lemma talk_frame E request w d k :
  request_data request = PDict d ->
  py_hash (default (PStr (lit "default")) (dict_lookup d (lit "session_id"))) = Ret k ->
  forall k', k' <> k ->
  conversation_history (snd (talk E request w)) !! k' = conversation_history w !! k'.
Proof.
  intros Hd Hk k' Hne.
  destruct (truthy (default (PStr []) (dict_lookup d (lit "text")))) eqn:Ht.
  - destruct (stdout_write E (lit "[USER TEXT] "
                ++ py_str (default (PStr []) (dict_lookup d (lit "text"))))) as [[]|e] eqn:Hp.
    + rewrite (talk_printed _ _ _ _ Hd Ht Hp).
      now apply (talk_steps_effect E _ _ w k).
    + now rewrite (talk_print_raises _ _ _ _ _ Hd Ht Hp).
  - destruct d as [|kv d'].
    + now rewrite talk_unparsed by now rewrite Hd.
    + now rewrite (talk_no_text _ _ _ _ Hd) by (assumption || discriminate).
Qed.

(** What [clear_session] does on a JSON object with a hashable session id. *)
Lemma clear_session_run request w d :
  json_loads_data request = Ret (PDict d) ->
  let session_id := default (PStr (lit "default")) (dict_lookup d (lit "session_id")) in
  forall k, py_hash session_id = Ret k ->
  clear_session request w
  = (Ret (jsonify [(lit "message",
                    PStr (lit "Session '" ++ py_str session_id ++ lit "' cleared."))],
          200%Z),
     with_history w (delete k (conversation_history w))).
Proof.
  intros Hd sid k Hk. subst sid. destruct w as [h f calls].
  unfold clear_session. rewrite Hd, bind_lift_Ret. cbn [py_get]. rewrite bind_lift_Ret.
  unfold history_contains, history_delitem.
  unfold bind at 1. unfold bind at 1. rewrite Hk. cbn [lift].
  unfold bind, get_history, put_history, ret, raise, with_history.
  cbn [lift conversation_history files llm_calls].
  destruct (h !! k) as [turns|] eqn:Hh.
  - rewrite bool_decide_eq_true_2 by eauto.
    cbn [conversation_history files llm_calls]. rewrite Hh. reflexivity.
  - rewrite bool_decide_eq_false_2 by (intros [? ?]; discriminate).
    cbn [conversation_history files llm_calls]. now rewrite delete_id.
Qed.

End WithRuntime.
End SessionFacts.

(** ** Sessions and request data: the claims *)

Section SessionClaims.
Import Pipeline DialogueFacts TalkFacts SessionFacts.
Context `{Runtime}.

Lemma talk_default_session (E : env) (request : flask_request) (w : world)
    (d : list (str * pyval)) :
  dict_lookup d SESSION_ID = None ->
  request_data request = PDict d ->
  truthy (default (PStr []) (dict_lookup d (lit "text"))) = true ->
  stdout_write E (lit "[USER TEXT] "
                  ++ py_str (default (PStr []) (dict_lookup d (lit "text")))) = Ret tt ->
  talk E request w
  = try_except
      (talk_steps E (PStr DEFAULT_SESSION) (default (PStr []) (dict_lookup d (lit "text"))))
      (fun e => ret (failure_payload (exn_str e))) w.
Proof.
  intros Hsid Hd Ht Hp. rewrite (talk_printed _ _ _ _ Hd Ht Hp).
  change (lit "session_id") with SESSION_ID. now rewrite Hsid.
Qed.

Lemma talk_session_spelled_out (E : env) (request request' : flask_request) (w : world)
    (d : list (str * pyval)) :
  dict_lookup d SESSION_ID = None ->
  request_data request = PDict d ->
  d <> [] ->
  request_data request' = PDict (d ++ [(SESSION_ID, PStr DEFAULT_SESSION)]) ->
  talk E request w = talk E request' w.
Proof.
  intros Hsid Hd Hne Hd'.
  assert (Hne' : d ++ [(SESSION_ID, PStr DEFAULT_SESSION)] <> [])
    by (now destruct d).
  assert (Htext : dict_lookup (d ++ [(SESSION_ID, PStr DEFAULT_SESSION)]) (lit "text")
                  = dict_lookup d (lit "text"))
    by (apply dict_lookup_app_other; discriminate).
  destruct (truthy (default (PStr []) (dict_lookup d (lit "text")))) eqn:Ht.
  - rewrite (talk_proceeds _ _ _ _ Hd Ht).
    rewrite (talk_proceeds _ _ _ _ Hd') by now rewrite Htext.
    rewrite Htext. change (lit "session_id") with SESSION_ID.
    now rewrite (dict_lookup_app_new _ _ _ Hsid), Hsid.
  - rewrite (talk_no_text _ _ _ _ Hd Hne Ht).
    now rewrite (talk_no_text _ _ _ _ Hd' Hne') by now rewrite Htext.
Qed.

(** A body that is not JSON makes [clear_session] raise the decoding error. *)
Lemma clear_session_not_json (request : flask_request) (w : world) (e : exn) :
  json_loads_data request = Raise e ->
  clear_session request w = (Raise e, w).
Proof. intros Hd. unfold clear_session, bind, lift. now rewrite Hd. Qed.

(** C9, as amended.  A request whose data is an object [d] without a
    [session_id] field is served under the session id "default", when its
    data can be read.

    /talk reads the data by any of its three methods (JSON, raw text, form
    fields).  The handler answers and leaves the world exactly as for the
    same object with [session_id: "default"] added; when the object has a
    text that was printed, Steps 1 to 6 run with the session id "default"
    and the request sent to the model is built from the turns stored under
    "default"; the turns stored under every other key are left alone.

    /clear_session reads JSON only.  On a body that is a JSON object it
    removes the key "default", if present, and answers
    [Session 'default' cleared.] with status 200; on a body that is not JSON
    (an empty body, form fields) it raises the decoding error and changes
    nothing. *)
Theorem C9_missing_session_id_means_default
    (E : env) (request request' : flask_request) (w : world)
    (d : list (str * pyval)) :
  dict_lookup d SESSION_ID = None ->
  let user_text := default (PStr []) (dict_lookup d (lit "text")) in
  (request_data request = PDict d ->
     (d <> [] ->
      request_data request' = PDict (d ++ [(SESSION_ID, PStr DEFAULT_SESSION)]) ->
      talk E request w = talk E request' w)
     /\ (truthy user_text = true ->
         stdout_write E (lit "[USER TEXT] " ++ py_str user_text) = Ret tt ->
         talk E request w
         = try_except (talk_steps E (PStr DEFAULT_SESSION) user_text)
             (fun e => ret (failure_payload (exn_str e))) w
         /\ llm_calls (snd (talk E request w))
            = llm_calls w
                ++ [llm_request (transcript w (KStr DEFAULT_SESSION)
                                   ++ [user_turn user_text])])
     /\ (forall k, k <> KStr DEFAULT_SESSION ->
                   conversation_history (snd (talk E request w)) !! k
                   = conversation_history w !! k))
  /\ (json_loads_data request = Ret (PDict d) ->
      clear_session request w
      = (Ret (jsonify [(lit "message", PStr (lit "Session 'default' cleared."))],
              200%Z),
         with_history w (delete (KStr DEFAULT_SESSION) (conversation_history w))))
  /\ (forall e, json_loads_data request = Raise e ->
                clear_session request w = (Raise e, w)).
Proof.
  intros Hsid. cbv zeta. split; [|split].
  - intros Hd. split; [|split].
    + intros Hne Hd'. exact (talk_session_spelled_out E _ _ w d Hsid Hd Hne Hd').
    + intros Ht Hp.
      pose proof (talk_default_session E request w d Hsid Hd Ht Hp) as Hproceeds.
      split; [exact Hproceeds|]. rewrite Hproceeds.
      now apply (talk_steps_effect E (PStr DEFAULT_SESSION)).
    + intros k Hk. apply (talk_frame E request w d (KStr DEFAULT_SESSION) Hd); [|exact Hk].
      change (lit "session_id") with SESSION_ID. now rewrite Hsid.
  - intros Hd.
    rewrite (clear_session_run _ _ _ Hd (KStr DEFAULT_SESSION));
      change (lit "session_id") with SESSION_ID; now rewrite Hsid.
  - intros e He. exact (clear_session_not_json request w e He).
Qed.

(** C10, as amended.  When the data of a /talk request is a non-empty
    object whose text is absent, empty or otherwise false, the answer is
    [{success: false, error: "No text provided"}] with status 200; when the
    data is itself empty or absent, the answer is
    [{success: false, error: "Could not parse request data"}] with status
    200.  Either way the world is left as it was: no turn is stored and no
    session is created. *)
Theorem C10_no_text_leaves_the_store
    (E : env) (request : flask_request) (w : world) :
  (forall d, request_data request = PDict d -> d <> [] ->
             truthy (default (PStr []) (dict_lookup d (lit "text"))) = false ->
             talk E request w
             = (Ret (jsonify [(lit "success", PBool false);
                              (lit "error", PStr (lit "No text provided"))], 200%Z),
                w))
  /\ (truthy (request_data request) = false ->
      talk E request w
      = (Ret (jsonify [(lit "success", PBool false);
                       (lit "error", PStr (lit "Could not parse request data"))],
              200%Z),
         w)).
Proof.
  split.
  - intros d Hd Hne Ht. exact (talk_no_text _ _ _ _ Hd Hne Ht).
  - intros Hd. exact (talk_unparsed _ _ _ Hd).
Qed.

End SessionClaims.

(** The request [{"text": "hello"}], against services that are down. *)
Lemma C9_anonymous_witness :
  @talk AsciiRuntime.tables Pipeline.all_down Pipeline.HELLO_ANONYMOUS Pipeline.empty_world
  = @talk AsciiRuntime.tables Pipeline.all_down Pipeline.HELLO_DEFAULT Pipeline.empty_world
  /\ llm_calls
       (snd (@talk AsciiRuntime.tables Pipeline.all_down Pipeline.HELLO_ANONYMOUS
               Pipeline.empty_world))
     = [Pipeline.llm_request [Pipeline.user_turn (PStr (lit "hello"))]]
  /\ Pipeline.transcript
       (snd (@talk AsciiRuntime.tables Pipeline.all_down Pipeline.HELLO_ANONYMOUS
               Pipeline.empty_world))
       (KStr Pipeline.DEFAULT_SESSION)
     = [Pipeline.user_turn (PStr (lit "hello"))]
  /\ @clear_session AsciiRuntime.tables Pipeline.HELLO_ANONYMOUS Pipeline.empty_world
     = (Ret (jsonify [(lit "message", PStr (lit "Session 'default' cleared."))], 200%Z),
        Pipeline.empty_world).
Proof.
  destruct (@C9_missing_session_id_means_default AsciiRuntime.tables
              Pipeline.all_down Pipeline.HELLO_ANONYMOUS Pipeline.HELLO_DEFAULT
              Pipeline.empty_world [(lit "text", PStr (lit "hello"))] eq_refl)
    as (Htalk & Hclear & _).
  destruct (Htalk eq_refl) as (Hsame & Hruns & _).
  destruct (Hruns eq_refl eq_refl) as [_ Hcalls].
  split; [|split; [|split]].
  - apply Hsame; [discriminate|reflexivity].
  - rewrite Hcalls. reflexivity.
  - vm_compute. reflexivity.
  - rewrite (Hclear eq_refl). vm_compute. reflexivity.
Defined.

(** C9, as stated, fails for /clear_session: the form-encoded body
    [text=hello] omits the session id; /talk serves it under "default",
    and /clear_session raises on it. *)
Lemma C9_form_body_counterexample :
  form Pipeline.HELLO_FORM = [(lit "text", lit "hello")]
  /\ Pipeline.transcript
       (snd (@talk AsciiRuntime.tables Pipeline.all_down Pipeline.HELLO_FORM
               Pipeline.empty_world))
       (KStr Pipeline.DEFAULT_SESSION)
     = [Pipeline.user_turn (PStr (lit "hello"))]
  /\ @clear_session AsciiRuntime.tables Pipeline.HELLO_FORM Pipeline.two_sessions
     = (Raise (Exn "JSONDecodeError" (lit "Expecting value: line 1 column 1 (char 0)")),
        Pipeline.two_sessions).
Proof.
  split; [reflexivity|]. split; vm_compute; reflexivity.
Qed.

(** C10, as stated, fails: the body [{}] has no text, and the answer is not
    "No text provided". *)
Lemma C10_empty_object_counterexample :
  dict_lookup [] (lit "text") = None
  /\ Pipeline.request_data_of_empty_object = PDict []
  /\ @talk AsciiRuntime.tables Pipeline.all_up Pipeline.EMPTY_OBJECT Pipeline.empty_world
     = (Ret (jsonify [(lit "success", PBool false);
                      (lit "error", PStr (lit "Could not parse request data"))], 200%Z),
        Pipeline.empty_world)
  /\ jsonify [(lit "success", PBool false);
              (lit "error", PStr (lit "Could not parse request data"))]
       !! lit "error"
     <> Some (PStr (lit "No text provided")).
Proof.
  split; [reflexivity|]. split; [reflexivity|]. split.
  - vm_compute. reflexivity.
  - vm_compute. discriminate.
Qed.

(** * Further properties *)

(** ** Strings and the parser *)

Module MoreParseFacts.
Import Pipeline PyFacts DirectiveSpec ParseFacts.

Lemma rstrip_idempotent s : rstrip (rstrip s) = rstrip s.
Proof.
  induction s as [|c s IH]; [reflexivity|]. cbn [rstrip].
  destruct (rstrip s) as [|r rs] eqn:Er.
  - destruct (isspace c) eqn:Hc; [reflexivity|]. cbn. now rewrite Hc.
  - cbn [rstrip]. cbn [rstrip] in IH. now rewrite IH.
Qed.

Lemma lstrip_rstrip_lstrip s : lstrip (rstrip (lstrip s)) = rstrip (lstrip s).
Proof.
  induction s as [|c s IH]; [reflexivity|]. cbn [lstrip].
  destruct (isspace c) eqn:Hc; [exact IH|].
  cbn [rstrip]. destruct (rstrip s); rewrite ?Hc; cbn [lstrip]; now rewrite Hc.
Qed.

Lemma strip_idempotent s : strip (strip s) = strip s.
Proof. unfold strip. now rewrite lstrip_rstrip_lstrip, rstrip_idempotent. Qed.

Lemma lstrip_app_spaces w s : forallb isspace w = true -> lstrip (w ++ s) = lstrip s.
Proof.
  induction w as [|c w IH]; [reflexivity|]. cbn. intros Hw.
  apply andb_prop in Hw as [Hc Hw]. rewrite Hc. now apply IH.
Qed.

Lemma split_pieces_without_sep sep s l :
  In l (split sep s) -> ~ In sep l.
Proof.
  revert l. induction s as [|c s IH]; intros l; cbn.
  - intros [<- | []]. tauto.
  - destruct (N.eqb_spec c sep) as [-> | Hne].
    + intros [<- | Hl]; [tauto|now apply IH].
    + destruct (split sep s) as [|p ps] eqn:Es.
      * intros [<- | []]. cbn. intros [Hc | []]. congruence.
      * intros [<- | Hl].
        -- cbn. intros [Hc | Hp]; [congruence|]. apply (IH p); [now left|exact Hp].
        -- apply IH. now right.
Qed.

Lemma In_join c sep ls :
  In c (join sep ls) -> In c sep \/ exists l, In l ls /\ In c l.
Proof.
  induction ls as [|x ls IH]; cbn; [tauto|].
  destruct ls as [|y ls].
  - intros Hc. right. exists x. auto.
  - rewrite !in_app_iff. intros [Hc | [Hc | Hc]].
    + right. exists x. auto.
    + now left.
    + destruct (IH Hc) as [Hs | (l & Hl & Hcl)]; [now left|].
      right. exists l. split; [now right|exact Hcl].
Qed.

Lemma startswith_prefix s p : startswith s p = true -> exists rest, s = p ++ rest.
Proof.
  revert s. induction p as [|a p IH]; intros s Hs; [now exists s|].
  destruct s as [|b s]; cbn in Hs; [discriminate|].
  apply andb_prop in Hs as [Hb Hs]. apply N.eqb_eq in Hb. subst b.
  destruct (IH s Hs) as [rest ->]. now exists rest.
Qed.

Section WithRuntime.
Context `{Runtime}.

Lemma spoken_text_without_newline raw : ~ In NEWLINE (spec_spoken_text raw).
Proof.
  unfold spec_spoken_text, spoken_of_lines, raw_lines. intros Hin.
  apply In_strip, In_join in Hin as [Hsp | (l & Hl & Hc)].
  - vm_compute in Hsp. destruct Hsp as [Hsp | []]. discriminate Hsp.
  - apply List.filter_In in Hl as [Hl _].
    now apply (split_pieces_without_sep NEWLINE raw l).
Qed.

Lemma parse_response_strip_only raw raw' :
  strip raw = strip raw' -> parse_response raw = parse_response raw'.
Proof. unfold parse_response. now intros ->. Qed.

End WithRuntime.

(** Replacing the extension of a path that has it once, at its end. *)
Lemma replace_extension stem :
  (forall pre post, stem <> pre ++ MP3_EXT ++ post) ->
  replace MP3_EXT WAV_EXT (stem ++ MP3_EXT) = stem ++ WAV_EXT.
Proof.
  unfold replace. induction stem as [|c s IH]; intros Hfree; [reflexivity|].
  change ((c :: s) ++ MP3_EXT) with (c :: (s ++ MP3_EXT)). cbn [replace_from].
  destruct (startswith (c :: s ++ MP3_EXT) MP3_EXT) eqn:Hs.
  - exfalso.
    destruct s as [|a [|b [|d s']]]; cbn in Hs;
      repeat (let Hx := fresh in apply andb_prop in Hs as [Hx Hs];
              apply N.eqb_eq in Hx);
      try (apply N.eqb_eq in Hs); subst; try discriminate.
    apply (Hfree [] s'). reflexivity.
  - cbn. f_equal. apply IH. intros pre post Heq.
    apply (Hfree (c :: pre) post). cbn. now rewrite Heq.
Qed.

End MoreParseFacts.

Module ContainsFacts.
Import Pipeline.

Lemma startswith_app p t : startswith (p ++ t) p = true.
Proof. induction p as [|a p IH]; [reflexivity|]. cbn. now rewrite N.eqb_refl. Qed.

Lemma str_contains_false s needle :
  str_contains s needle = false -> forall pre post, s <> pre ++ needle ++ post.
Proof.
  intros Hc pre. revert s Hc. induction pre as [|c pre IH]; intros s Hc post Heq.
  - subst s. cbn [app] in Hc.
    assert (Hs : startswith (needle ++ post) needle = true) by apply startswith_app.
    destruct (needle ++ post); cbn in Hc; rewrite Hs in Hc; discriminate.
  - subst s. cbn [app str_contains] in Hc. apply orb_false_elim in Hc as [_ Hc].
    now apply (IH _ Hc post).
Qed.

End ContainsFacts.

Section ParserExtras.
Import Pipeline PyFacts DirectiveSpec ParseFacts MoreParseFacts ContainsFacts.
Context `{Runtime}.

(** X1.  The spoken text [parse_response] returns is a single trimmed line:
    it holds no line break, and trimming it again changes nothing. *)
Theorem X1_spoken_text_is_one_trimmed_line (raw : str) :
  exists spoken motion face,
    parse_response raw = Ret (spoken, motion, face)
    /\ ~ In NEWLINE spoken
    /\ strip spoken = spoken.
Proof.
  exists (spec_spoken_text raw), (spec_motion raw), (spec_face raw).
  split; [apply parse_response_spec|]. split.
  - apply spoken_text_without_newline.
  - unfold spec_spoken_text, spoken_of_lines. apply strip_idempotent.
Qed.

(** X2.  White space around the reply, line breaks included, does not
    change what [parse_response] returns. *)
Theorem X2_surrounding_space_is_ignored (before raw after : str) :
  forallb isspace before = true ->
  forallb isspace after = true ->
  parse_response (before ++ raw ++ after) = parse_response raw.
Proof.
  intros Hb Ha. apply parse_response_strip_only.
  rewrite app_assoc, strip_app_spaces by assumption.
  unfold strip. now rewrite lstrip_app_spaces.
Qed.

(** X3.  When [.mp3] occurs nowhere in the name the temporary file was
    given, the output path of the transcoder is the input path with its
    extension changed to [.wav]. *)
Theorem X3_wav_path_swaps_extension (stem : str) :
  str_contains stem MP3_EXT = false ->
  wav_path_of (stem ++ lit ".mp3") = stem ++ lit ".wav".
Proof.
  intros Hfree. apply replace_extension. now apply str_contains_false.
Qed.

End ParserExtras.

Lemma X2_padded_reply_witness :
  @parse_response AsciiRuntime.tables
    ([10; 32; 9] ++ Pipeline.JOKE ++ [32; 13; 10; 10])
  = @parse_response AsciiRuntime.tables Pipeline.JOKE.
Proof.
  apply (@X2_surrounding_space_is_ignored AsciiRuntime.tables); reflexivity.
Defined.

Lemma X3_temp_name_witness :
  wav_path_of (lit "/tmp/tmpk3x9a_2b" ++ lit ".mp3") = lit "/tmp/tmpk3x9a_2b" ++ lit ".wav".
Proof. apply X3_wav_path_swaps_extension. reflexivity. Defined.

(** Without the premise of X3 the directory changes too. *)
Example wav_path_in_mp3_directory :
  wav_path_of (lit "/data/x.mp3s/tmpab" ++ lit ".mp3") = lit "/data/x.wavs/tmpab.wav".
Proof. vm_compute. reflexivity. Qed.

(** ** The dialogue engine and the session store *)

Section DialogueExtras.
Import Pipeline DirectiveSpec ParseFacts DialogueFacts TranscoderFacts TalkFacts SessionFacts.
Context `{Runtime}.

(** X4.  A call of [get_llm_response] that the model answers returns the
    reply and leaves under the session the last twenty of its former turns
    followed by the new user turn and the new assistant turn: at most twenty
    turns, ending with this exchange. *)
Theorem X4_answered_call_keeps_last_twenty
    (E : env) (session_id message : pyval) (w : world) (k : key) (reply : str) :
  py_hash session_id = Ret k ->
  chat_completions_create E (llm_request (transcript w k ++ [user_turn message]))
    = Ret reply ->
  let w' := snd (get_llm_response E session_id message w) in
  fst (get_llm_response E session_id message w) = Ret reply
  /\ transcript w' k
     = last_n 20 (transcript w k ++ [user_turn message; assistant_turn reply])
  /\ (length (transcript w' k) <= 20)%nat
  /\ exists older, transcript w' k = older ++ [user_turn message; assistant_turn reply].
Proof.
  intros Hk Hreply. cbv zeta.
  rewrite (get_llm_response_run _ _ _ _ _ Hk). cbv zeta. rewrite Hreply. cbn [fst snd].
  rewrite transcript_after_llm_call, bounded_last_n, <- app_assoc. cbn [app].
  split; [reflexivity|]. split; [reflexivity|]. split.
  - unfold last_n. rewrite length_drop. lia.
  - unfold last_n. rewrite length_app. cbn [length].
    exists (drop (length (transcript w k) + 2 - 20) (transcript w k)).
    apply drop_app_le. lia.
Qed.

(** X5.  A call of [get_llm_response] for one session changes neither the
    turns stored under any other key nor the files on disk, whether the
    model answers or not. *)
Theorem X5_other_sessions_untouched
    (E : env) (session_id message : pyval) (w : world) (k' : key) :
  py_hash session_id <> Ret k' ->
  let w' := snd (get_llm_response E session_id message w) in
  conversation_history w' !! k' = conversation_history w !! k'
  /\ files w' = files w.
Proof.
  intros Hk'. cbv zeta. destruct (py_hash session_id) as [k|e] eqn:Hk.
  - rewrite (get_llm_response_run _ _ _ _ _ Hk). cbv zeta.
    destruct (chat_completions_create E _); cbn;
      (split; [apply lookup_insert_ne; congruence|reflexivity]).
  - now rewrite (get_llm_response_unhashable _ _ _ _ _ Hk).
Qed.

(** X6.  [clear_session] removes the session of the request from the store
    altogether and leaves every other session and the files alone; the next
    answered call for that session id starts from an empty history. *)
Theorem X6_cleared_session_starts_afresh
    (E : env) (request : flask_request) (w : world)
    (d : list (str * pyval)) (k : key) (message : pyval) (reply : str) :
  let session_id := default (PStr DEFAULT_SESSION) (dict_lookup d SESSION_ID) in
  json_loads_data request = Ret (PDict d) ->
  py_hash session_id = Ret k ->
  chat_completions_create E (llm_request [user_turn message]) = Ret reply ->
  let w1 := snd (clear_session request w) in
  conversation_history w1 !! k = None
  /\ (forall k', k' <> k -> conversation_history w1 !! k' = conversation_history w !! k')
  /\ files w1 = files w
  /\ transcript (snd (get_llm_response E session_id message w1)) k
     = [user_turn message; assistant_turn reply].
Proof.
  cbv zeta. intros Hd Hk Hreply.
  rewrite (clear_session_run _ _ _ Hd k Hk). cbn [snd].
  assert (Hgone : conversation_history
                    (with_history w (delete k (conversation_history w))) !! k = None)
    by apply lookup_delete_eq.
  split; [exact Hgone|]. split; [|split].
  - intros k' Hne. cbn. now apply lookup_delete_ne.
  - reflexivity.
  - assert (Hnone : transcript (with_history w (delete k (conversation_history w))) k = [])
      by (unfold transcript; now rewrite Hgone).
    rewrite (get_llm_response_run _ _ _ _ _ Hk). cbv zeta.
    rewrite Hnone. cbn [app]. rewrite Hreply. cbn [snd].
    now rewrite transcript_after_llm_call.
Qed.

(** [clear_session] has no handler of its own: either it raises whatever
    the world is, leaving it unchanged, or the body is an object with a
    hashable session id. *)
Lemma clear_session_cases (request : flask_request) :
  (exists e, forall w, clear_session request w = (Raise e, w))
  \/ (exists d k,
        json_loads_data request = Ret (PDict d)
        /\ py_hash (default (PStr DEFAULT_SESSION) (dict_lookup d SESSION_ID)) = Ret k).
Proof.
  destruct (json_loads_data request) as [data|e] eqn:Hd.
  - destruct data as [| | | | |d];
      try (left; eexists; intros w; unfold clear_session; rewrite Hd; reflexivity).
    destruct (py_hash (default (PStr DEFAULT_SESSION) (dict_lookup d SESSION_ID)))
      as [k|e] eqn:Hk.
    + right. now exists d, k.
    + left. exists e. intros w. unfold clear_session.
      rewrite Hd, bind_lift_Ret. cbn [py_get]. rewrite bind_lift_Ret.
      unfold history_contains. unfold bind at 1. unfold bind at 1.
      change (lit "session_id") with SESSION_ID.
      change (lit "default") with DEFAULT_SESSION.
      now rewrite Hk.
  - left. exists e. intros w. unfold clear_session. now rewrite Hd.
Qed.

(** X7.  Clearing is idempotent.  For every request a second
    [clear_session] does what the first did.  On a body that is a JSON
    object with a session id that can be a key, the handler does not raise:
    it answers [Session '<id>' cleared.] with status 200, the second time as
    the first, and the second call changes nothing more; when the session
    is not stored, the first call leaves the world as it was too. *)
Theorem X7_clearing_twice_is_clearing_once (request : flask_request) (w : world) :
  clear_session request (snd (clear_session request w)) = clear_session request w
  /\ (forall d k,
        let session_id := default (PStr DEFAULT_SESSION) (dict_lookup d SESSION_ID) in
        let answer :=
          (jsonify [(lit "message",
                     PStr (lit "Session '" ++ py_str session_id ++ lit "' cleared."))],
           200%Z) in
        json_loads_data request = Ret (PDict d) ->
        py_hash session_id = Ret k ->
        exists w1,
          clear_session request w = (Ret answer, w1)
          /\ clear_session request w1 = (Ret answer, w1)
          /\ conversation_history w1 !! k = None
          /\ (conversation_history w !! k = None -> w1 = w)).
Proof.
  split.
  - destruct (clear_session_cases request) as [[e He] | (d & k & Hd & Hk)].
    + now rewrite !He.
    + rewrite !(clear_session_run _ _ _ Hd k Hk). cbn [snd]. f_equal.
      unfold with_history. cbn [conversation_history files llm_calls].
      now rewrite delete_delete_eq.
  - intros d k. cbv zeta. intros Hd Hk.
    exists (with_history w (delete k (conversation_history w))).
    rewrite !(clear_session_run _ _ _ Hd k Hk).
    change (lit "session_id") with SESSION_ID. change (lit "default") with DEFAULT_SESSION.
    split; [reflexivity|]. split; [|split].
    + f_equal. unfold with_history. cbn [conversation_history files llm_calls].
      now rewrite delete_delete_eq.
    + cbn [with_history conversation_history]. apply lookup_delete_eq.
    + intros Hnone. destruct w as [h f calls]. unfold with_history.
      cbn [conversation_history files llm_calls] in *. now rewrite delete_id.
Qed.
End DialogueExtras.

Lemma X4_full_session_witness :
  let w' := snd (@get_llm_response AsciiRuntime.tables Pipeline.all_up
                   (PStr (lit "s1")) (PStr (lit "hello")) Pipeline.two_sessions) in
  fst (@get_llm_response AsciiRuntime.tables Pipeline.all_up
         (PStr (lit "s1")) (PStr (lit "hello")) Pipeline.two_sessions)
  = Ret Pipeline.JOKE
  /\ Pipeline.transcript w' (KStr (lit "s1"))
     = last_n 20 (Pipeline.transcript Pipeline.two_sessions (KStr (lit "s1"))
                    ++ [Pipeline.user_turn (PStr (lit "hello"));
                        Pipeline.assistant_turn Pipeline.JOKE])
  /\ (length (Pipeline.transcript w' (KStr (lit "s1"))) <= 20)%nat
  /\ exists older,
       Pipeline.transcript w' (KStr (lit "s1"))
       = older ++ [Pipeline.user_turn (PStr (lit "hello"));
                   Pipeline.assistant_turn Pipeline.JOKE].
Proof.
  apply (@X4_answered_call_keeps_last_twenty AsciiRuntime.tables Pipeline.all_up
           (PStr (lit "s1")) (PStr (lit "hello")) Pipeline.two_sessions
           (KStr (lit "s1")) Pipeline.JOKE); reflexivity.
Defined.

Lemma X5_second_session_witness :
  let w' := snd (@get_llm_response AsciiRuntime.tables Pipeline.all_up
                   (PStr (lit "s1")) (PStr (lit "hello")) Pipeline.two_sessions) in
  conversation_history w' !! KStr (lit "s2")
  = conversation_history Pipeline.two_sessions !! KStr (lit "s2")
  /\ files w' = files Pipeline.two_sessions.
Proof.
  apply (@X5_other_sessions_untouched AsciiRuntime.tables Pipeline.all_up
           (PStr (lit "s1")) (PStr (lit "hello")) Pipeline.two_sessions
           (KStr (lit "s2"))).
  vm_compute. discriminate.
Defined.

Lemma X7_clear_s1_twice_witness :
  exists w1,
    @clear_session AsciiRuntime.tables Pipeline.ONLY_SESSION_ID Pipeline.two_sessions
    = (Ret (jsonify [(lit "message", PStr (lit "Session 's1' cleared."))], 200%Z), w1)
    /\ @clear_session AsciiRuntime.tables Pipeline.ONLY_SESSION_ID w1
       = (Ret (jsonify [(lit "message", PStr (lit "Session 's1' cleared."))], 200%Z), w1)
    /\ conversation_history w1 !! KStr (lit "s1") = None
    /\ (conversation_history Pipeline.two_sessions !! KStr (lit "s1") = None ->
        w1 = Pipeline.two_sessions).
Proof.
  destruct (@X7_clearing_twice_is_clearing_once AsciiRuntime.tables
              Pipeline.ONLY_SESSION_ID Pipeline.two_sessions) as [_ Hobject].
  exact (Hobject [(lit "session_id", PStr (lit "s1"))] (KStr (lit "s1")) eq_refl eq_refl).
Defined.

Lemma X6_clear_s1_witness :
  let w1 := snd (@clear_session AsciiRuntime.tables Pipeline.ONLY_SESSION_ID
                   Pipeline.two_sessions) in
  conversation_history w1 !! KStr (lit "s1") = None
  /\ (forall k', k' <> KStr (lit "s1") ->
                 conversation_history w1 !! k'
                 = conversation_history Pipeline.two_sessions !! k')
  /\ files w1 = files Pipeline.two_sessions
  /\ Pipeline.transcript
       (snd (@get_llm_response AsciiRuntime.tables Pipeline.all_up
               (PStr (lit "s1")) (PStr (lit "hello")) w1))
       (KStr (lit "s1"))
     = [Pipeline.user_turn (PStr (lit "hello")); Pipeline.assistant_turn Pipeline.JOKE].
Proof.
  apply (@X6_cleared_session_starts_afresh AsciiRuntime.tables Pipeline.all_up
           Pipeline.ONLY_SESSION_ID Pipeline.two_sessions
           [(lit "session_id", PStr (lit "s1"))] (KStr (lit "s1"))
           (PStr (lit "hello")) Pipeline.JOKE); reflexivity.
Defined.

(** ** The handlers and their collaborators *)

Module HandlerFacts.
Import Pipeline DirectiveSpec ParseFacts DialogueFacts TranscoderFacts TalkFacts SessionFacts.

Section WithRuntime.
Context `{Runtime}.

(** Steps 1 to 6 only return the success payload. *)
Lemma talk_steps_returns_success E session_id user_text w r w' :
  talk_steps E session_id user_text w = (Ret r, w') ->
  exists s m f wav, r = success_payload user_text s m f (b64encode wav).
Proof.
  unfold talk_steps, py_print, bind, lift, ret.
  destruct (get_llm_response E session_id user_text w) as [[raw|e] w1]; [|discriminate].
  destruct (stdout_write E (lit "[LLM] " ++ raw)) as [[]|e]; [|discriminate].
  rewrite parse_response_spec.
  destruct (stdout_write E _) as [[]|e]; [|discriminate].
  destruct (text_to_speech E _ w1) as [[mp3|e] w2]; [|discriminate].
  destruct (convert_to_esp32_wav E mp3 w2) as [[wav|e] w3]; [|discriminate].
  intros Heq. injection Heq as <- <-. eexists _, _, _, _. reflexivity.
Qed.

(** Data that is not a [dict] has no [get]. *)
Lemma talk_not_a_dict E request w data :
  request_data request = data ->
  truthy data = true ->
  (forall d, data <> PDict d) ->
  talk E request w
  = (Ret (failure_payload
            (lit "'" ++ lit (type_name data) ++ lit "' object has no attribute 'get'")),
     w).
Proof.
  intros Hd Ht Hnd. unfold talk, try_except. rewrite Hd, Ht.
  destruct data; try reflexivity. now destruct (Hnd items).
Qed.

(** [text_to_speech], stage by stage. *)
Lemma text_to_speech_unfold E spoken w :
  text_to_speech E spoken w =
  match requests_post E MURF_URL (murf_headers E) (murf_payload E spoken) with
  | Raise e => (Raise e, w)
  | Ret response =>
      if negb (status_code response =? 200)%Z then
        (Raise (Exn "Exception"
                  (lit "Murf error " ++ str_of_Z (status_code response) ++ lit ": "
                   ++ text response)), w)
      else
        match json response with
        | Raise e => (Raise e, w)
        | Ret data =>
            match py_get data (lit "audioFile") PNone with
            | Raise e => (Raise e, w)
            | Ret audio_url =>
                if negb (truthy audio_url) then
                  (Raise (Exn "Exception"
                            (lit "Murf did not return an audio URL. Response: "
                             ++ repr data)), w)
                else
                  match requests_get E audio_url with
                  | Raise e => (Raise e, w)
                  | Ret audio_response =>
                      if negb (status_code audio_response =? 200)%Z then
                        (Raise (Exn "Exception"
                                  (lit "Failed to download Murf audio: "
                                   ++ str_of_Z (status_code audio_response))), w)
                      else (Ret (content_bytes audio_response), w)
                  end
            end
        end
  end.
Proof.
  unfold text_to_speech, bind, lift, raise, ret.
  change (lit "https://api.murf.ai/v1/speech/generate") with MURF_URL.
  fold (murf_headers E). fold (murf_payload E spoken).
  destruct (requests_post E MURF_URL (murf_headers E) (murf_payload E spoken))
    as [response|e]; [|reflexivity].
  destruct (negb (status_code response =? 200)%Z); [reflexivity|].
  destruct (json response) as [data|e]; [|reflexivity].
  destruct (py_get data (lit "audioFile") PNone) as [audio_url|e]; [|reflexivity].
  destruct (negb (truthy audio_url)); [reflexivity|].
  destruct (requests_get E audio_url) as [audio_response|e]; [|reflexivity].
  now destruct (negb (status_code audio_response =? 200)%Z).
Qed.

(** [talk_text] on an object body without a true text. *)
Lemma talk_text_no_text E request w d :
  json_loads_data request = Ret (PDict d) ->
  truthy (default (PStr []) (dict_lookup d (lit "text"))) = false ->
  talk_text E request w = (Ret (failure_payload (lit "No text provided")), w).
Proof.
  intros Hd Ht. unfold talk_text, try_except.
  rewrite Hd, bind_lift_Ret. cbn [py_get]. rewrite !bind_lift_Ret.
  now rewrite Ht.
Qed.

(** [talk_text] on an object body with a text sends its request to the
    model, whatever standard output does. *)
Lemma talk_text_calls_model E request w d k :
  json_loads_data request = Ret (PDict d) ->
  truthy (default (PStr []) (dict_lookup d (lit "text"))) = true ->
  py_hash (default (PStr DEFAULT_SESSION) (dict_lookup d SESSION_ID)) = Ret k ->
  llm_calls (snd (talk_text E request w))
  = llm_calls w
      ++ [llm_request (transcript w k
                         ++ [user_turn (default (PStr []) (dict_lookup d (lit "text")))])].
Proof.
  intros Hd Ht Hk. unfold talk_text, try_except.
  rewrite Hd, bind_lift_Ret. cbn [py_get]. rewrite !bind_lift_Ret.
  change (lit "session_id") with SESSION_ID. change (lit "default") with DEFAULT_SESSION.
  rewrite Ht. cbn [negb]. unfold bind.
  rewrite (get_llm_response_run _ _ _ _ _ Hk). cbv zeta.
  destruct (chat_completions_create E _) as [reply|e]; [|reflexivity].
  rewrite parse_response_spec. cbn [lift].
  match goal with |- context [text_to_speech E ?s ?w1] =>
    pose proof (text_to_speech_world E s w1) as Hw;
    destruct (text_to_speech E s w1) as [[mp3|e] w2] end;
    cbn [snd] in Hw; subst w2; [|reflexivity].
  rewrite convert_run. cbv zeta.
  destruct (failure _); [|destruct (_ !! _)]; reflexivity.
Qed.

(** [talk_text] on an object body, in terms of Steps 1 to 6 of [talk], which
    print what [talk_text] does not. *)
Lemma talk_text_unfold E request w d :
  (forall line, stdout_write E line = Ret tt) ->
  json_loads_data request = Ret (PDict d) ->
  talk_text E request w =
  let user_text := default (PStr []) (dict_lookup d (lit "text")) in
  let session_id := default (PStr DEFAULT_SESSION) (dict_lookup d SESSION_ID) in
  if negb (truthy user_text) then
    (Ret (failure_payload (lit "No text provided")), w)
  else
    match talk_steps E session_id user_text w with
    | (Ret (payload, status), w') => (Ret (text_only payload, status), w')
    | (Raise e, w') => (Ret (failure_payload (exn_str e)), w')
    end.
Proof.
  intros Hout Hd. cbv zeta. unfold talk_text, try_except.
  rewrite Hd, bind_lift_Ret. cbn [py_get]. rewrite !bind_lift_Ret.
  change (lit "session_id") with SESSION_ID. change (lit "default") with DEFAULT_SESSION.
  destruct (negb (truthy (default (PStr []) (dict_lookup d (lit "text"))))); [reflexivity|].
  unfold talk_steps, py_print, bind, lift, ret.
  destruct (get_llm_response E _ _ w) as [[raw|e] w1]; [|reflexivity].
  rewrite Hout, parse_response_spec, Hout.
  destruct (text_to_speech E _ w1) as [[mp3|e] w2]; [|reflexivity].
  destruct (convert_to_esp32_wav E mp3 w2) as [[wav|e] w3]; reflexivity.
Qed.

End WithRuntime.
End HandlerFacts.

Section HandlerExtras.
Import Pipeline DirectiveSpec ParseFacts DialogueFacts TranscoderFacts TalkFacts SessionFacts.
Import HandlerFacts.
Context `{Runtime}.


(** X9.  On a request with a text, once the text is printed, a session id
    that cannot be a dictionary key (a JSON array or object) makes [talk]
    answer [unhashable type: '...'] as its error, before anything is stored
    or sent to the model. *)
Theorem X9_unhashable_session_id
    (E : env) (request : flask_request) (w : world)
    (d : list (str * pyval)) (session_id : pyval) (e : exn) :
  let user_text := default (PStr []) (dict_lookup d (lit "text")) in
  request_data request = PDict d ->
  truthy user_text = true ->
  stdout_write E (lit "[USER TEXT] " ++ py_str user_text) = Ret tt ->
  dict_lookup d SESSION_ID = Some session_id ->
  py_hash session_id = Raise e ->
  talk E request w
  = (Ret (jsonify [(lit "success", PBool false);
                   (lit "error",
                    PStr (lit "unhashable type: '" ++ lit (type_name session_id)
                            ++ lit "'"))], 200%Z),
     w).
Proof.
  cbv zeta. intros Hd Ht Hp Hsid He. rewrite (talk_printed _ _ _ _ Hd Ht Hp).
  change (lit "session_id") with SESSION_ID. rewrite Hsid. cbn [default from_option id].
  unfold try_except.
  rewrite (talk_steps_llm_raises _ _ _ _ e w)
    by now apply get_llm_response_unhashable.
  destruct session_id; try discriminate He; injection He as <-; reflexivity.
Qed.

(** X10.  Request data that is true but not an object (a JSON array, string
    or number) makes [talk] answer ['...' object has no attribute 'get'] as
    its error, the world unchanged. *)
Theorem X10_data_that_is_not_an_object
    (E : env) (request : flask_request) (w : world) (data : pyval) :
  request_data request = data ->
  truthy data = true ->
  (forall d, data <> PDict d) ->
  talk E request w
  = (Ret (jsonify [(lit "success", PBool false);
                   (lit "error",
                    PStr (lit "'" ++ lit (type_name data)
                            ++ lit "' object has no attribute 'get'"))], 200%Z),
     w).
Proof. apply talk_not_a_dict. Qed.


(** X12.  When the earlier stages succeed, their three lines are printed
    and the conversion tool then fails, [talk] still answers success: the
    audio it returns is the base64 text of the bytes of the synthesizer,
    unconverted. *)
Theorem X12_failed_conversion_still_succeeds
    (E : env) (request : flask_request) (w w1 w2 : world)
    (d : list (str * pyval)) (raw s m f : str) (mp3 : bytes) (e : exn) :
  let user_text := default (PStr []) (dict_lookup d (lit "text")) in
  let session_id := default (PStr DEFAULT_SESSION) (dict_lookup d SESSION_ID) in
  let mp3_path := temp_name E ++ lit ".mp3" in
  request_data request = PDict d ->
  truthy user_text = true ->
  stdout_write E (lit "[USER TEXT] " ++ py_str user_text) = Ret tt ->
  get_llm_response E session_id user_text w = (Ret raw, w1) ->
  stdout_write E (lit "[LLM] " ++ raw) = Ret tt ->
  parse_response raw = Ret (s, m, f) ->
  stdout_write E (lit "[PARSE] spoken: " ++ s ++ lit " | motion: " ++ m
                  ++ lit " | face: " ++ f) = Ret tt ->
  text_to_speech E s w1 = (Ret mp3, w2) ->
  failure (run_tool E (ffmpeg_cmd mp3_path (wav_path_of mp3_path)) (Some mp3)) = Some e ->
  fst (talk E request w)
  = Ret (jsonify [(lit "success", PBool true);
                  (lit "transcript", user_text);
                  (lit "response", PStr s);
                  (lit "motion", PStr m);
                  (lit "face", PStr f);
                  (lit "audio_base64", PStr (b64encode mp3))], 200%Z).
Proof.
  cbv zeta. intros Hd Ht Hpu Hl Hpl Hp Hpp Hs Hfail.
  rewrite (talk_printed _ _ _ _ Hd Ht Hpu). unfold try_except.
  destruct (convert_to_esp32_wav E mp3 w2) as [out w3] eqn:Hc.
  assert (out = Ret mp3) as ->.
  { rewrite convert_run in Hc. cbv zeta in Hc. rewrite Hfail in Hc. now injection Hc. }
  change (lit "session_id") with SESSION_ID. change (lit "default") with DEFAULT_SESSION.
  now rewrite (talk_steps_success _ _ _ _ _ _ _ _ _ _ _ _ _ Hl Hpl Hp Hpp Hs Hc).
Qed.

(** X13.  A body that decodes to a false value ([{}], [[]], [0], the empty
    string, [null], [false]) or to nothing, with no form field, makes [talk]
    answer [Could not parse request data], the world unchanged. *)
Theorem X13_false_body_without_form
    (E : env) (request : flask_request) (w : world) :
  truthy (get_json request) = false ->
  (forall loaded, json_loads_data request = Ret loaded -> truthy loaded = false) ->
  form request = [] ->
  talk E request w
  = (Ret (jsonify [(lit "success", PBool false);
                   (lit "error", PStr (lit "Could not parse request data"))], 200%Z),
     w).
Proof.
  intros Hjson Hloads Hform. apply talk_unparsed.
  unfold request_data, form_to_dict. rewrite Hjson, Hform. cbn [negb List.map].
  destruct (truthy (PStr (get_data request))); [|now rewrite Hjson].
  destruct (json_loads_data request) as [loaded|e] eqn:Hl.
  - now rewrite (Hloads loaded eq_refl).
  - now rewrite Hjson.
Qed.

(** X14.  [text_to_speech] returns bytes exactly when the POST is answered
    with status 200 and a JSON body with a true [audioFile], and the GET of
    that URL is answered with status 200; the bytes are the content of that
    second answer, and the world is unchanged. *)
Theorem X14_speech_returns_only_downloaded_audio
    (E : env) (spoken : str) (w w' : world) (audio : bytes) :
  text_to_speech E spoken w = (Ret audio, w')
  <-> w' = w
      /\ exists response data audio_url audio_response,
           requests_post E MURF_URL (murf_headers E) (murf_payload E spoken) = Ret response
           /\ status_code response = 200%Z
           /\ json response = Ret data
           /\ py_get data (lit "audioFile") PNone = Ret audio_url
           /\ truthy audio_url = true
           /\ requests_get E audio_url = Ret audio_response
           /\ status_code audio_response = 200%Z
           /\ content_bytes audio_response = audio.
Proof.
  rewrite text_to_speech_unfold. split.
  - destruct (requests_post E _ _ _) as [response|e] eqn:Hpost; [|discriminate].
    destruct (Z.eqb_spec (status_code response) 200) as [Hs|Hs]; cbn [negb]; [|discriminate].
    destruct (json response) as [data|e] eqn:Hjson; [|discriminate].
    destruct (py_get data _ _) as [audio_url|e] eqn:Hget; [|discriminate].
    destruct (truthy audio_url) eqn:Hurl; cbn [negb]; [|discriminate].
    destruct (requests_get E audio_url) as [audio_response|e] eqn:Hdown; [|discriminate].
    destruct (Z.eqb_spec (status_code audio_response) 200) as [Hs'|Hs']; cbn [negb];
      [|discriminate].
    intros Heq. injection Heq as <- <-. split; [reflexivity|].
    exists response, data, audio_url, audio_response. repeat split; assumption.
  - intros (-> & response & data & audio_url & audio_response
            & -> & Hs & -> & -> & Hurl & -> & Hs' & <-).
    now rewrite Hs, Hurl, Hs'.
Qed.

(** X15.  The failures of [text_to_speech] once the POST is answered: a
    status other than 200 raises [Murf error <status>: <body>]; an object
    without a true [audioFile] raises
    [Murf did not return an audio URL. Response: <data>]; a download
    answered with a status other than 200 raises
    [Failed to download Murf audio: <status>]. *)
Theorem X15_speech_failures
    (E : env) (spoken : str) (w : world) (response : http_response) :
  requests_post E MURF_URL (murf_headers E) (murf_payload E spoken) = Ret response ->
  (status_code response <> 200%Z ->
   text_to_speech E spoken w
   = (Raise (Exn "Exception"
               (lit "Murf error " ++ str_of_Z (status_code response) ++ lit ": "
                ++ text response)), w))
  /\ (status_code response = 200%Z ->
      forall d, json response = Ret (PDict d) ->
        let audio_url := default PNone (dict_lookup d (lit "audioFile")) in
        (truthy audio_url = false ->
         text_to_speech E spoken w
         = (Raise (Exn "Exception"
                     (lit "Murf did not return an audio URL. Response: "
                      ++ repr (PDict d))), w))
        /\ (truthy audio_url = true ->
            forall audio_response,
              requests_get E audio_url = Ret audio_response ->
              status_code audio_response <> 200%Z ->
              text_to_speech E spoken w
              = (Raise (Exn "Exception"
                          (lit "Failed to download Murf audio: "
                           ++ str_of_Z (status_code audio_response))), w))).
Proof.
  intros Hpost. rewrite text_to_speech_unfold, Hpost. split.
  - intros Hs. destruct (Z.eqb_spec (status_code response) 200); [contradiction|reflexivity].
  - intros Hs d Hjson. cbv zeta. rewrite Hs, Hjson. cbn [Z.eqb negb py_get Pos.eqb].
    split.
    + now intros ->.
    + intros -> audio_response -> Hs'. cbn [negb].
      destruct (Z.eqb_spec (status_code audio_response) 200); [contradiction|reflexivity].
Qed.
(** X16.  [convert_to_esp32_wav] touches nothing but its two temporary
    files: whatever the tool does, every other file is as before, and so are
    the sessions and the log of model requests.  Once the tool has run,
    whether it failed or not, the input file is gone. *)
Theorem X16_transcoder_touches_only_its_files
    (E : env) (mp3_bytes : bytes) (w : world) :
  let mp3_path := temp_name E ++ lit ".mp3" in
  let wav_path := wav_path_of mp3_path in
  let result := run_tool E (ffmpeg_cmd mp3_path wav_path) (Some mp3_bytes) in
  let w' := snd (convert_to_esp32_wav E mp3_bytes w) in
  (forall p, p <> mp3_path -> p <> wav_path -> files w' !! p = files w !! p)
  /\ conversation_history w' = conversation_history w
  /\ llm_calls w' = llm_calls w
  /\ (forall e, failure result = Some e -> files w' !! mp3_path = None)
  /\ (failure result = None -> files w' !! mp3_path = None).
Proof.
  cbv zeta. pose proof (wav_path_differs (temp_name E)) as Hne.
  rewrite convert_run. cbv zeta.
  set (mp3_path := temp_name E ++ lit ".mp3") in *.
  set (wav_path := wav_path_of mp3_path) in *.
  assert (Hframe : forall fs fs' : gmap str bytes,
            (forall p, p <> mp3_path -> p <> wav_path -> fs' !! p = fs !! p) ->
            forall p, p <> mp3_path -> p <> wav_path ->
                      delete mp3_path fs' !! p = fs !! p
                      /\ delete wav_path (delete mp3_path fs') !! p = fs !! p).
  { intros fs fs' Hfs p Hp Hq. rewrite !lookup_delete_ne by congruence. auto. }
  destruct (run_tool E _ _) as [[data|] [e|]]; cbn [written failure];
    rewrite ?lookup_insert_eq;
    try (destruct (_ !! wav_path) as [stale|]);
    cbn [snd with_files files conversation_history llm_calls];
    (split; [|split; [reflexivity|split; [reflexivity|]]]);
    try (intros p Hp Hq; rewrite ?lookup_delete_ne, ?lookup_insert_ne by congruence;
         reflexivity);
    (split; [intros ? ?|intros ?]);
    rewrite ?(lookup_delete_ne _ wav_path mp3_path) by congruence;
    apply lookup_delete_eq.
Qed.

(** X17.  When the tool succeeds and writes its output, the transcoder
    returns the bytes of the output file and leaves neither temporary file;
    if neither path existed beforehand, the world is exactly as before. *)
Theorem X17_successful_conversion_cleans_up
    (E : env) (mp3_bytes wav_bytes : bytes) (w : world) :
  let mp3_path := temp_name E ++ lit ".mp3" in
  let wav_path := wav_path_of mp3_path in
  let result := run_tool E (ffmpeg_cmd mp3_path wav_path) (Some mp3_bytes) in
  failure result = None ->
  written result = Some wav_bytes ->
  let w' := snd (convert_to_esp32_wav E mp3_bytes w) in
  fst (convert_to_esp32_wav E mp3_bytes w) = Ret wav_bytes
  /\ files w' !! mp3_path = None
  /\ files w' !! wav_path = None
  /\ (files w !! mp3_path = None -> files w !! wav_path = None -> w' = w).
Proof.
  cbv zeta. intros Hok Hout. pose proof (wav_path_differs (temp_name E)) as Hne.
  rewrite convert_run. cbv zeta. rewrite Hok, Hout, lookup_insert_eq. cbn [fst snd].
  split; [reflexivity|]. split; [|split].
  - cbn [with_files files]. rewrite lookup_delete_ne by congruence. apply lookup_delete_eq.
  - cbn [with_files files]. apply lookup_delete_eq.
  - intros Hmp3 Hwav.
    pose proof (successful_conversion_cleans_up E mp3_bytes wav_bytes w Hok Hout Hmp3 Hwav)
      as Hrun.
    rewrite convert_run in Hrun. cbv zeta in Hrun.
    rewrite Hok, Hout, lookup_insert_eq in Hrun. now injection Hrun.
Qed.
(** X18.  On a body that is a non-empty JSON object, and when standard
    output takes every line [talk] prints, [talk_text] does to the world
    what [talk] does and answers the same with the transcript dropped and
    [response] renamed [spoken_text]. *)
Theorem X18_talk_text_follows_talk
    (E : env) (request : flask_request) (w : world) (d : list (str * pyval)) :
  (forall line, stdout_write E line = Ret tt) ->
  json_loads_data request = Ret (PDict d) ->
  request_data request = PDict d ->
  d <> [] ->
  exists payload w',
    talk E request w = (Ret (payload, 200%Z), w')
    /\ talk_text E request w = (Ret (text_only payload, 200%Z), w').
Proof.
  intros Hout Hl Hd Hne. rewrite (talk_text_unfold _ _ _ _ Hout Hl). cbv zeta.
  destruct (truthy (default (PStr []) (dict_lookup d (lit "text")))) eqn:Ht; cbn [negb].
  - rewrite (talk_printed _ _ _ _ Hd Ht (Hout _)). unfold try_except.
    change (lit "session_id") with SESSION_ID. change (lit "default") with DEFAULT_SESSION.
    destruct (talk_steps E _ _ w) as [[r|e] w'] eqn:Hsteps.
    + destruct (talk_steps_returns_success _ _ _ _ _ _ Hsteps) as (s & m & f & wav & ->).
      eexists _, _. split; reflexivity.
    + eexists _, _. split; reflexivity.
  - rewrite (talk_no_text _ _ _ _ Hd Hne Ht). eexists _, _. split; reflexivity.
Qed.

(** X19.  [talk_text] reads the body with [json.loads] alone: a body that is
    not JSON is answered with the message of the decoder as error, and an
    object without a true text, the empty object included, is answered
    [No text provided]; the world is unchanged in both cases. *)
Theorem X19_talk_text_rejects_without_guard
    (E : env) (request : flask_request) (w : world) :
  (forall e, json_loads_data request = Raise e ->
             talk_text E request w = (Ret (failure_payload (exn_str e)), w))
  /\ (forall d, json_loads_data request = Ret (PDict d) ->
                truthy (default (PStr []) (dict_lookup d (lit "text"))) = false ->
                talk_text E request w = (Ret (failure_payload (lit "No text provided")), w)).
Proof.
  split.
  - intros e He. unfold talk_text, try_except, bind, lift. now rewrite He.
  - intros d Hd Ht. exact (talk_text_no_text _ _ _ _ Hd Ht).
Qed.

(** X20.  [send_to_esp32] never raises and leaves the world alone; it
    returns [True] exactly when the POST to [http://<ip>/command] is
    answered with status 200. *)
Theorem X20_device_dispatch_never_raises
    (E : env) (esp32_ip audio_b64 motion face : str) (w : world) :
  let url := lit "http://" ++ esp32_ip ++ lit "/command" in
  let payload := [(lit "audio", PStr audio_b64); (lit "motion", PStr motion);
                  (lit "face", PStr face)] in
  exists sent,
    send_to_esp32 E esp32_ip audio_b64 motion face w = (Ret sent, w)
    /\ (sent = true
        <-> exists response,
              requests_post E url [] payload = Ret response
              /\ status_code response = 200%Z).
Proof.
  cbv zeta. unfold send_to_esp32, try_except, bind, lift, ret.
  destruct (requests_post E _ _ _) as [response|e] eqn:Hpost.
  - destruct (Z.eqb_spec (status_code response) 200) as [Hs|Hs].
    + exists true. split; [reflexivity|]. split; [|reflexivity]. intros _. eauto.
    + exists false. split; [reflexivity|]. split; [discriminate|].
      intros (r & Hr & Hs'). congruence.
  - exists false. split; [reflexivity|]. split; [discriminate|].
    intros (r & Hr & _). discriminate.
Qed.

(** X21.  A text that standard output cannot encode stops [talk] at its
    first [print]: when writing the line [[USER TEXT] <text>] raises [e], the
    handler answers [{success: false, error: str(e)}] with status 200 and the
    world is unchanged, no turn stored and no request sent to the model.
    [talk_text], which prints nothing, sends its request to the model on the
    same body. *)
Theorem X21_unprintable_text_stops_talk
    (E : env) (request : flask_request) (w : world)
    (d : list (str * pyval)) (e : exn) :
  let user_text := default (PStr []) (dict_lookup d (lit "text")) in
  let session_id := default (PStr DEFAULT_SESSION) (dict_lookup d SESSION_ID) in
  request_data request = PDict d ->
  truthy user_text = true ->
  stdout_write E (lit "[USER TEXT] " ++ py_str user_text) = Raise e ->
  talk E request w
  = (Ret (jsonify [(lit "success", PBool false); (lit "error", PStr (exn_str e))],
          200%Z),
     w)
  /\ (forall k, json_loads_data request = Ret (PDict d) ->
                py_hash session_id = Ret k ->
                llm_calls (snd (talk_text E request w))
                = llm_calls w ++ [llm_request (transcript w k ++ [user_turn user_text])]).
Proof.
  cbv zeta. intros Hd Ht Hp. split.
  - exact (talk_print_raises _ _ _ _ _ Hd Ht Hp).
  - intros k Hl Hk. exact (talk_text_calls_model _ _ _ _ _ Hl Ht Hk).
Qed.
End HandlerExtras.

(** Instances of the properties above, on the scenarios of [Pipeline]. *)

Lemma X9_list_session_id_witness :
  @talk AsciiRuntime.tables Pipeline.all_up Pipeline.LIST_SESSION_ID Pipeline.empty_world
  = (Ret (jsonify [(lit "success", PBool false);
                   (lit "error", PStr (lit "unhashable type: 'list'"))], 200%Z),
     Pipeline.empty_world).
Proof.
  apply (@X9_unhashable_session_id AsciiRuntime.tables Pipeline.all_up
           Pipeline.LIST_SESSION_ID Pipeline.empty_world
           [(lit "text", PStr (lit "hello")); (lit "session_id", PList [PInt 1])]
           (PList [PInt 1])
           (Exn "TypeError" (lit "unhashable type: 'list'")));
    reflexivity.
Defined.

Lemma X10_array_body_witness :
  @talk AsciiRuntime.tables Pipeline.all_up Pipeline.JSON_ARRAY Pipeline.empty_world
  = (Ret (jsonify [(lit "success", PBool false);
                   (lit "error", PStr (lit "'list' object has no attribute 'get'"))],
          200%Z),
     Pipeline.empty_world).
Proof.
  apply (@X10_data_that_is_not_an_object AsciiRuntime.tables Pipeline.all_up
           Pipeline.JSON_ARRAY Pipeline.empty_world (PList [PInt 1; PInt 2]));
    [reflexivity|reflexivity|discriminate].
Defined.


Lemma X12_tool_missing_witness :
  fst (@talk AsciiRuntime.tables Pipeline.tool_missing Pipeline.JOKE_S1
         Pipeline.empty_world)
  = Ret (jsonify
           [(lit "success", PBool true);
            (lit "transcript", PStr (lit "Tell me a joke"));
            (lit "response",
             PStr (lit "Why did the robot cross the road? To get to the other silicon!"));
            (lit "motion", PStr (lit "dance"));
            (lit "face", PStr (lit "happy"));
            (lit "audio_base64", PStr (b64encode Pipeline.MP3_STUB))], 200%Z).
Proof.
  pose (w1 := snd (@get_llm_response AsciiRuntime.tables Pipeline.tool_missing
                     (PStr (lit "s1")) (PStr (lit "Tell me a joke"))
                     Pipeline.empty_world)).
  apply (@X12_failed_conversion_still_succeeds AsciiRuntime.tables Pipeline.tool_missing
           Pipeline.JOKE_S1 Pipeline.empty_world w1 w1
           [(lit "text", PStr (lit "Tell me a joke"));
            (lit "session_id", PStr (lit "s1"))]
           Pipeline.JOKE
           (lit "Why did the robot cross the road? To get to the other silicon!")
           (lit "dance") (lit "happy") Pipeline.MP3_STUB
           (Exn "FileNotFoundError"
              (lit "[Errno 2] No such file or directory: 'ffmpeg'")));
    vm_compute; reflexivity.
Defined.

Lemma X13_empty_object_witness :
  @talk AsciiRuntime.tables Pipeline.all_up Pipeline.EMPTY_OBJECT Pipeline.two_sessions
  = (Ret (jsonify [(lit "success", PBool false);
                   (lit "error", PStr (lit "Could not parse request data"))], 200%Z),
     Pipeline.two_sessions).
Proof.
  apply (@X13_false_body_without_form AsciiRuntime.tables Pipeline.all_up
           Pipeline.EMPTY_OBJECT Pipeline.two_sessions).
  - reflexivity.
  - intros loaded Hl. injection Hl as <-. reflexivity.
  - reflexivity.
Defined.

Lemma X15_status_500_witness :
  @text_to_speech AsciiRuntime.tables Pipeline.murf_down (lit "Hello") Pipeline.empty_world
  = (Raise (Exn "Exception" (lit "Murf error 500: Internal Server Error")),
     Pipeline.empty_world).
Proof.
  destruct (@X15_speech_failures AsciiRuntime.tables Pipeline.murf_down (lit "Hello")
              Pipeline.empty_world
              {| status_code := 500; text := lit "Internal Server Error";
                 json := Raise Pipeline.unreachable; content_bytes := [] |} eq_refl)
    as [Hstatus _].
  rewrite Hstatus; [reflexivity|discriminate].
Defined.

(** The tool is missing: the input file is removed, the two sessions stay. *)
Lemma X16_tool_missing_witness :
  let mp3_path := lit "/tmp/tmpk3x9a_2b" ++ lit ".mp3" in
  let w' := snd (@convert_to_esp32_wav AsciiRuntime.tables Pipeline.tool_missing
                   Pipeline.MP3_STUB Pipeline.two_sessions) in
  (forall p, p <> mp3_path -> p <> wav_path_of mp3_path ->
             files w' !! p = files Pipeline.two_sessions !! p)
  /\ conversation_history w' = conversation_history Pipeline.two_sessions
  /\ llm_calls w' = llm_calls Pipeline.two_sessions
  /\ files w' !! mp3_path = None.
Proof.
  destruct (@X16_transcoder_touches_only_its_files AsciiRuntime.tables
              Pipeline.tool_missing Pipeline.MP3_STUB Pipeline.two_sessions)
    as (Hfiles & Hhistory & Hcalls & Hfailed & _).
  split; [exact Hfiles|]. split; [exact Hhistory|]. split; [exact Hcalls|].
  exact (Hfailed (Exn "FileNotFoundError"
                    (lit "[Errno 2] No such file or directory: 'ffmpeg'")) eq_refl).
Defined.

Lemma X17_conversion_witness :
  let w' := snd (@convert_to_esp32_wav AsciiRuntime.tables Pipeline.all_up
                   Pipeline.MP3_STUB Pipeline.empty_world) in
  fst (@convert_to_esp32_wav AsciiRuntime.tables Pipeline.all_up Pipeline.MP3_STUB
         Pipeline.empty_world) = Ret Pipeline.PCM_STUB
  /\ files w' !! (lit "/tmp/tmpk3x9a_2b" ++ lit ".mp3") = None
  /\ files w' !! wav_path_of (lit "/tmp/tmpk3x9a_2b" ++ lit ".mp3") = None
  /\ (files Pipeline.empty_world !! (lit "/tmp/tmpk3x9a_2b" ++ lit ".mp3") = None ->
      files Pipeline.empty_world !! wav_path_of (lit "/tmp/tmpk3x9a_2b" ++ lit ".mp3")
      = None ->
      w' = Pipeline.empty_world).
Proof.
  apply (@X17_successful_conversion_cleans_up AsciiRuntime.tables Pipeline.all_up
           Pipeline.MP3_STUB Pipeline.PCM_STUB Pipeline.empty_world); reflexivity.
Defined.

Lemma X18_hello_witness :
  exists payload w',
    @talk AsciiRuntime.tables Pipeline.all_up Pipeline.HELLO_ANONYMOUS Pipeline.empty_world
    = (Ret (payload, 200%Z), w')
    /\ @talk_text AsciiRuntime.tables Pipeline.all_up Pipeline.HELLO_ANONYMOUS
         Pipeline.empty_world
       = (Ret (Pipeline.text_only payload, 200%Z), w').
Proof.
  apply (@X18_talk_text_follows_talk AsciiRuntime.tables Pipeline.all_up
           Pipeline.HELLO_ANONYMOUS Pipeline.empty_world
           [(lit "text", PStr (lit "hello"))]);
    [reflexivity|reflexivity|reflexivity|discriminate].
Defined.

(** The body [{"text": "\ud800"}] on a UTF-8 standard output. *)
Lemma X21_lone_surrogate_witness :
  @talk AsciiRuntime.tables Pipeline.all_up_utf8 Pipeline.LONE_SURROGATE
    Pipeline.two_sessions
  = (Ret (jsonify
            [(lit "success", PBool false);
             (lit "error",
              PStr (lit "'utf-8' codec can't encode character '\ud800' in position 12: surrogates not allowed"))],
          200%Z),
     Pipeline.two_sessions)
  /\ llm_calls
       (snd (@talk_text AsciiRuntime.tables Pipeline.all_up_utf8 Pipeline.LONE_SURROGATE
               Pipeline.two_sessions))
     = [Pipeline.llm_request [Pipeline.user_turn (PStr [55296])]].
Proof.
  destruct (@X21_unprintable_text_stops_talk AsciiRuntime.tables Pipeline.all_up_utf8
              Pipeline.LONE_SURROGATE Pipeline.two_sessions
              [(lit "text", PStr [55296])]
              (Exn "UnicodeEncodeError"
                 (lit "'utf-8' codec can't encode character '\ud800' in position 12: surrogates not allowed"))
              eq_refl eq_refl eq_refl)
    as [Htalk Htext].
  split; [exact Htalk|].
  exact (Htext (KStr Pipeline.DEFAULT_SESSION) eq_refl eq_refl).
Defined.

(** What [talk_text] answers in the end-to-end scenario. *)
Example talk_text_joke :
  fst (@talk_text AsciiRuntime.tables Pipeline.all_up
         Pipeline.HELLO_ANONYMOUS Pipeline.empty_world)
  = Ret (jsonify
           [(lit "success", PBool true);
            (lit "audio_base64", PStr (lit "UklGRoB/"));
            (lit "motion", PStr (lit "dance"));
            (lit "face", PStr (lit "happy"));
            (lit "spoken_text",
             PStr (lit "Why did the robot cross the road? To get to the other silicon!"))],
         200%Z).
Proof. vm_compute. reflexivity. Qed.
